(** * The NSX-T policy Service resource: entry codec and CRUD operations

    A shallow embedding of [nsxt/resource_nsxt_policy_service.go]: the
    encode pass [resourceNsxtPolicyServiceGetEntriesFromSchema], the decode
    loop of [resourceNsxtPolicyServiceRead] and the four resource
    operations, together with the properties the specification states about
    them.

    Conventions.
    - Go [int] and [int64] are 64 bits wide and modelled as [Z]; the only
      arithmetic on them is the range check of [strconv.Atoi].
    - A Go pointer field ([*string], [*int64]) is an [option]; dereferencing
      [None] panics.
    - A Go function returning [error] returns [option error] ([None] = nil).
    - The collaborators that live outside this file (the vAPI type
      converter, the services client, the schema accessor, id generation and
      the error helpers) are interfaces: type classes whose methods are the
      calls the source makes. *)

From Stdlib Require Import ZArith Ascii String DecimalString.
From stdpp Require Import base option list strings gmap.

Local Open Scope Z_scope.

(** ** Go errors *)

Inductive NumErrKind := ErrSyntax | ErrRange.

(** [error] values the file can see: [*strconv.NumError], an error made by
    [fmt.Errorf] from a constant message, an error made by [fmt.Errorf]
    with a trailing [%v] of another error, and errors produced by the
    collaborators. *)
Inductive error :=
  | NumError (Func Num : string) (Err : NumErrKind)
  | errorString (msg : string)
  | Errorf_v (prefix : string) (cause : error)
  | externalError (msg : string).

#[export] Instance NumErrKind_eq_dec : EqDecision NumErrKind.
Proof. solve_decision. Defined.
#[export] Instance error_eq_dec : EqDecision error.
Proof. solve_decision. Defined.

(** ** The part of Go's [strconv] the file uses *)

Module strconv.

Definition isDigit (c : ascii) : bool :=
  let n := nat_of_ascii c in (48 <=? n)%nat && (n <=? 57)%nat.

Definition digitVal (c : ascii) : Z := Z.of_nat (nat_of_ascii c - 48).

(** The digit loop [n = n*10 + int(ch)]; [None] on a non-digit byte. *)
Fixpoint digits (s : string) (n : Z) : option Z :=
  match s with
  | EmptyString => Some n
  | String ch s' =>
      if isDigit ch then digits s' (n * 10 + digitVal ch) else None
  end.

Definition minInt : Z := - 2 ^ 63.
Definition maxInt : Z := 2 ^ 63 - 1.

Definition syntaxError (s : string) : error := NumError "Atoi" s ErrSyntax.
Definition rangeError (s : string) : error := NumError "Atoi" s ErrRange.

(** [strconv.Atoi]: an optional sign, at least one decimal digit, and a
    value that fits [int]. *)
Definition Atoi (s0 : string) : Z + error :=
  match s0 with
  | EmptyString => inr (syntaxError s0)
  | String c rest =>
      let neg := Ascii.eqb c "-" in
      let s := if neg || Ascii.eqb c "+" then rest else s0 in
      match s with
      | EmptyString => inr (syntaxError s0)
      | _ =>
          match digits s 0 with
          | None => inr (syntaxError s0)
          | Some n =>
              let v := if neg then - n else n in
              if (minInt <=? v) && (v <=? maxInt) then inl v
              else inr (rangeError s0)
          end
      end
  end.

(** [strconv.Itoa]: the decimal rendering, ["-"] first when negative. *)
Definition Itoa (i : Z) : string := NilZero.string_of_int (Z.to_int i).

End strconv.

(** ** The SDK's model structs (package [model])

    Only the fields the source sets or reads are kept; every struct has a
    module of its own so that the Go field names can be used as they are. *)

Definition ServiceEntry_RESOURCE_TYPE_ICMPTYPESERVICEENTRY : string :=
  "ICMPTypeServiceEntry".
Definition ServiceEntry_RESOURCE_TYPE_L4PORTSETSERVICEENTRY : string :=
  "L4PortSetServiceEntry".
Definition ServiceEntry_RESOURCE_TYPE_IGMPTYPESERVICEENTRY : string :=
  "IGMPTypeServiceEntry".
Definition ServiceEntry_RESOURCE_TYPE_ETHERTYPESERVICEENTRY : string :=
  "EtherTypeServiceEntry".
Definition ServiceEntry_RESOURCE_TYPE_IPPROTOCOLSERVICEENTRY : string :=
  "IPProtocolServiceEntry".
Definition ServiceEntry_RESOURCE_TYPE_ALGTYPESERVICEENTRY : string :=
  "ALGTypeServiceEntry".

Module ICMPTypeServiceEntry.
Record t := mk {
  Id : option string;
  DisplayName : option string;
  Description : option string;
  IcmpType : option Z;
  IcmpCode : option Z;
  Protocol : string;
  ResourceType : string }.
End ICMPTypeServiceEntry.

Module L4PortSetServiceEntry.
Record t := mk {
  Id : option string;
  DisplayName : option string;
  Description : option string;
  DestinationPorts : list string;
  SourcePorts : list string;
  L4Protocol : string;
  ResourceType : string }.
End L4PortSetServiceEntry.

Module IGMPTypeServiceEntry.
Record t := mk {
  Id : option string;
  DisplayName : option string;
  Description : option string;
  ResourceType : string }.
End IGMPTypeServiceEntry.

Module EtherTypeServiceEntry.
Record t := mk {
  Id : option string;
  DisplayName : option string;
  Description : option string;
  EtherType : Z;
  ResourceType : string }.
End EtherTypeServiceEntry.

Module IPProtocolServiceEntry.
Record t := mk {
  Id : option string;
  DisplayName : option string;
  Description : option string;
  ProtocolNumber : Z;
  ResourceType : string }.
End IPProtocolServiceEntry.

Module ALGTypeServiceEntry.
Record t := mk {
  Id : option string;
  DisplayName : option string;
  Description : option string;
  Alg : string;
  DestinationPorts : list string;
  SourcePorts : list string;
  ResourceType : string }.
End ALGTypeServiceEntry.

(** The six binding types handed to the converter. *)
Inductive BindingType :=
  | ICMPTypeServiceEntryBindingType
  | L4PortSetServiceEntryBindingType
  | IGMPTypeServiceEntryBindingType
  | EtherTypeServiceEntryBindingType
  | IPProtocolServiceEntryBindingType
  | ALGTypeServiceEntryBindingType.

#[export] Instance BindingType_eq_dec : EqDecision BindingType.
Proof. solve_decision. Defined.

(** The Go struct a binding type describes. *)
Definition golang (b : BindingType) : Type :=
  match b with
  | ICMPTypeServiceEntryBindingType => ICMPTypeServiceEntry.t
  | L4PortSetServiceEntryBindingType => L4PortSetServiceEntry.t
  | IGMPTypeServiceEntryBindingType => IGMPTypeServiceEntry.t
  | EtherTypeServiceEntryBindingType => EtherTypeServiceEntry.t
  | IPProtocolServiceEntryBindingType => IPProtocolServiceEntry.t
  | ALGTypeServiceEntryBindingType => ALGTypeServiceEntry.t
  end.

(** The common fields, read through the binding type. *)
Definition entryId (b : BindingType) : golang b -> option string :=
  match b with
  | ICMPTypeServiceEntryBindingType => ICMPTypeServiceEntry.Id
  | L4PortSetServiceEntryBindingType => L4PortSetServiceEntry.Id
  | IGMPTypeServiceEntryBindingType => IGMPTypeServiceEntry.Id
  | EtherTypeServiceEntryBindingType => EtherTypeServiceEntry.Id
  | IPProtocolServiceEntryBindingType => IPProtocolServiceEntry.Id
  | ALGTypeServiceEntryBindingType => ALGTypeServiceEntry.Id
  end.

Definition entryDisplayName (b : BindingType) : golang b -> option string :=
  match b with
  | ICMPTypeServiceEntryBindingType => ICMPTypeServiceEntry.DisplayName
  | L4PortSetServiceEntryBindingType => L4PortSetServiceEntry.DisplayName
  | IGMPTypeServiceEntryBindingType => IGMPTypeServiceEntry.DisplayName
  | EtherTypeServiceEntryBindingType => EtherTypeServiceEntry.DisplayName
  | IPProtocolServiceEntryBindingType => IPProtocolServiceEntry.DisplayName
  | ALGTypeServiceEntryBindingType => ALGTypeServiceEntry.DisplayName
  end.

(** ** The vAPI type converter ([bindings.TypeConverter], REST mode)

    [ConvertToVapi] and [ConvertToGolang] return a value and a slice of
    errors; the source tests the slice against nil and reads its element 0,
    so a failure is a non-empty list, given here by its head and tail. *)
Inductive converted (A : Type) :=
  | Converted (a : A)
  | ConvertErrors (e : error) (es : list error).
Arguments Converted {A} a.
Arguments ConvertErrors {A} e es.

Class TypeConverter := {
  StructValue : Type;
  ConvertToVapi : ∀ b : BindingType, golang b → converted StructValue;
  ConvertToGolang : StructValue → ∀ b : BindingType, converted (golang b) }.

(** ** The configuration side: what [d.Get(key)] holds for the six
    collections, after the set's [List()] and the type assertions of
    each [entryData] field (the schema layer types every field). *)

Module icmp_entry.
Record t := mk {
  display_name : string;
  description : string;
  protocol : string;
  icmp_type : string;
  icmp_code : string }.
End icmp_entry.

Module l4_port_set_entry.
Record t := mk {
  display_name : string;
  description : string;
  destination_ports : list string;
  source_ports : list string;
  protocol : string }.
End l4_port_set_entry.

Module igmp_entry.
Record t := mk {
  display_name : string;
  description : string }.
End igmp_entry.

Module ether_type_entry.
Record t := mk {
  display_name : string;
  description : string;
  ether_type : Z }.
End ether_type_entry.

Module ip_protocol_entry.
Record t := mk {
  display_name : string;
  description : string;
  protocol : Z }.
End ip_protocol_entry.

Module algorithm_entry.
Record t := mk {
  display_name : string;
  description : string;
  destination_port : string;
  source_ports : list string;
  algorithm : string }.
End algorithm_entry.

(** ** Values written back to the configuration

    [elem] in the decode loop is a [map[string]interface{}]; [Value] lists
    the dynamic types the loop stores in it. *)
Inductive Value :=
  | VString (s : string)
  | VStringPtr (p : option string)
  | VInt64 (i : Z)
  | VInt64Ptr (p : option Z)
  | VStringList (l : list string).

#[export] Instance Value_eq_dec : EqDecision Value.
Proof. solve_decision. Defined.

Abbreviation Elem := (gmap string Value).

(** What [d.Set] receives: a scalar, or a list of entry maps. *)
Inductive SetValue :=
  | SetScalar (v : Value)
  | SetEntries (l : list Elem).

(** ** Collaborator interfaces *)

(** The flat configuration accessor [*schema.ResourceData]: typed reads by
    key, the resource id, and [Set], which may reject a value. *)
Class SchemaAccessor := {
  ResourceData : Type;
  d_Id : ResourceData → string;
  d_SetId : string → ResourceData → ResourceData;
  d_GetString : string → ResourceData → string;
  d_GetInt : string → ResourceData → Z;
  d_icmp_entry : ResourceData → list icmp_entry.t;
  d_l4_port_set_entry : ResourceData → list l4_port_set_entry.t;
  d_igmp_entry : ResourceData → list igmp_entry.t;
  d_ether_type_entry : ResourceData → list ether_type_entry.t;
  d_ip_protocol_entry : ResourceData → list ip_protocol_entry.t;
  d_algorithm_entry : ResourceData → list algorithm_entry.t;
  d_Set : string → SetValue → ResourceData → ResourceData * option error }.

(** [newUUID()]: a generator that is advanced by every call. *)
Class UUIDGen := {
  UUIDState : Type;
  newUUID : UUIDState → string * UUIDState }.

(** ** A state monad, for the code that draws identifiers *)

Definition State (S A : Type) : Type := S → A * S.

#[export] Instance State_ret {S} : MRet (State S) := λ A a s, (a, s).
#[export] Instance State_bind {S} : MBind (State S) :=
  λ A B f m s, let '(a, s') := m s in f a s'.

(** ** Encode: configuration to wire records *)

Section Encode.
Context {conv : TypeConverter} {acc : SchemaAccessor} {gen : UUIDGen}.

(** [if entryData[k] != "" { v, err := strconv.Atoi(...); ... ptr = &v }]:
    the pointer stays nil on the empty string. *)
Definition optionalAtoi (v : string) : option Z + error :=
  if decide (v ≠ "") then
    match strconv.Atoi v with
    | inl n => inl (Some n)
    | inr err => inr err
    end
  else inl None.

(** [dataValue, errs := converter.ConvertToVapi(...)], [errs[0]] on
    failure. *)
Definition toVapi (b : BindingType) (serviceEntry : golang b)
  : StructValue + error :=
  match ConvertToVapi b serviceEntry with
  | Converted dataValue => inl dataValue
  | ConvertErrors e _ => inr e
  end.

(** One [for _, entry := range entries] loop of the function: a body
    that fails makes the function return what was appended so far
    together with the error. *)
Fixpoint rangeEntries {A} (body : A → State UUIDState (StructValue + error))
    (entries : list A) (serviceEntries : list StructValue)
  : State UUIDState (list StructValue * option error) :=
  match entries with
  | [] => mret (serviceEntries, None)
  | entry :: rest =>
      r ← body entry;
      match r with
      | inr err => mret (serviceEntries, Some err)
      | inl entryStruct =>
          rangeEntries body rest (serviceEntries ++ [entryStruct])
      end
  end.

Definition icmpEntryBody (entryData : icmp_entry.t)
  : State UUIDState (StructValue + error) :=
  match optionalAtoi (icmp_entry.icmp_type entryData) with
  | inr err => mret (inr err)
  | inl typePtr =>
      match optionalAtoi (icmp_entry.icmp_code entryData) with
      | inr err => mret (inr err)
      | inl codePtr =>
          let protocol := icmp_entry.protocol entryData in
          let displayName := icmp_entry.display_name entryData in
          let description := icmp_entry.description entryData in
          id ← newUUID;
          let serviceEntry := {|
            ICMPTypeServiceEntry.Id := Some id;
            ICMPTypeServiceEntry.DisplayName := Some displayName;
            ICMPTypeServiceEntry.Description := Some description;
            ICMPTypeServiceEntry.IcmpType := typePtr;
            ICMPTypeServiceEntry.IcmpCode := codePtr;
            ICMPTypeServiceEntry.Protocol := protocol;
            ICMPTypeServiceEntry.ResourceType :=
              ServiceEntry_RESOURCE_TYPE_ICMPTYPESERVICEENTRY |} in
          mret (toVapi ICMPTypeServiceEntryBindingType serviceEntry)
      end
  end.

Definition l4EntryBody (entryData : l4_port_set_entry.t)
  : State UUIDState (StructValue + error) :=
  let l4Protocol := l4_port_set_entry.protocol entryData in
  let sourcePorts := l4_port_set_entry.source_ports entryData in
  let destinationPorts := l4_port_set_entry.destination_ports entryData in
  let displayName := l4_port_set_entry.display_name entryData in
  let description := l4_port_set_entry.description entryData in
  id ← newUUID;
  let serviceEntry := {|
    L4PortSetServiceEntry.Id := Some id;
    L4PortSetServiceEntry.DisplayName := Some displayName;
    L4PortSetServiceEntry.Description := Some description;
    L4PortSetServiceEntry.DestinationPorts := destinationPorts;
    L4PortSetServiceEntry.SourcePorts := sourcePorts;
    L4PortSetServiceEntry.L4Protocol := l4Protocol;
    L4PortSetServiceEntry.ResourceType :=
      ServiceEntry_RESOURCE_TYPE_L4PORTSETSERVICEENTRY |} in
  mret (toVapi L4PortSetServiceEntryBindingType serviceEntry).

Definition igmpEntryBody (entryData : igmp_entry.t)
  : State UUIDState (StructValue + error) :=
  let displayName := igmp_entry.display_name entryData in
  let description := igmp_entry.description entryData in
  id ← newUUID;
  let serviceEntry := {|
    IGMPTypeServiceEntry.Id := Some id;
    IGMPTypeServiceEntry.DisplayName := Some displayName;
    IGMPTypeServiceEntry.Description := Some description;
    IGMPTypeServiceEntry.ResourceType :=
      ServiceEntry_RESOURCE_TYPE_IGMPTYPESERVICEENTRY |} in
  mret (toVapi IGMPTypeServiceEntryBindingType serviceEntry).

Definition etherEntryBody (entryData : ether_type_entry.t)
  : State UUIDState (StructValue + error) :=
  let displayName := ether_type_entry.display_name entryData in
  let description := ether_type_entry.description entryData in
  let etherType := ether_type_entry.ether_type entryData in
  id ← newUUID;
  let serviceEntry := {|
    EtherTypeServiceEntry.Id := Some id;
    EtherTypeServiceEntry.DisplayName := Some displayName;
    EtherTypeServiceEntry.Description := Some description;
    EtherTypeServiceEntry.EtherType := etherType;
    EtherTypeServiceEntry.ResourceType :=
      ServiceEntry_RESOURCE_TYPE_ETHERTYPESERVICEENTRY |} in
  mret (toVapi EtherTypeServiceEntryBindingType serviceEntry).

Definition ipProtEntryBody (entryData : ip_protocol_entry.t)
  : State UUIDState (StructValue + error) :=
  let displayName := ip_protocol_entry.display_name entryData in
  let description := ip_protocol_entry.description entryData in
  let protocolNumber := ip_protocol_entry.protocol entryData in
  id ← newUUID;
  let serviceEntry := {|
    IPProtocolServiceEntry.Id := Some id;
    IPProtocolServiceEntry.DisplayName := Some displayName;
    IPProtocolServiceEntry.Description := Some description;
    IPProtocolServiceEntry.ProtocolNumber := protocolNumber;
    IPProtocolServiceEntry.ResourceType :=
      ServiceEntry_RESOURCE_TYPE_IPPROTOCOLSERVICEENTRY |} in
  mret (toVapi IPProtocolServiceEntryBindingType serviceEntry).

Definition algEntryBody (entryData : algorithm_entry.t)
  : State UUIDState (StructValue + error) :=
  let displayName := algorithm_entry.display_name entryData in
  let description := algorithm_entry.description entryData in
  let alg := algorithm_entry.algorithm entryData in
  let sourcePorts := algorithm_entry.source_ports entryData in
  let destinationPorts := [] ++ [algorithm_entry.destination_port entryData] in
  id ← newUUID;
  let serviceEntry := {|
    ALGTypeServiceEntry.Id := Some id;
    ALGTypeServiceEntry.DisplayName := Some displayName;
    ALGTypeServiceEntry.Description := Some description;
    ALGTypeServiceEntry.Alg := alg;
    ALGTypeServiceEntry.DestinationPorts := destinationPorts;
    ALGTypeServiceEntry.SourcePorts := sourcePorts;
    ALGTypeServiceEntry.ResourceType :=
      ServiceEntry_RESOURCE_TYPE_ALGTYPESERVICEENTRY |} in
  mret (toVapi ALGTypeServiceEntryBindingType serviceEntry).

(** A loop runs only if no earlier loop has returned. *)
Definition thenRange {A} (body : A → State UUIDState (StructValue + error))
    (entries : list A) (prev : list StructValue * option error)
  : State UUIDState (list StructValue * option error) :=
  match prev with
  | (serviceEntries, None) => rangeEntries body entries serviceEntries
  | (serviceEntries, Some err) => mret (serviceEntries, Some err)
  end.

Definition resourceNsxtPolicyServiceGetEntriesFromSchema (d : ResourceData)
  : State UUIDState (list StructValue * option error) :=
  r ← rangeEntries icmpEntryBody (d_icmp_entry d) [];
  r ← thenRange l4EntryBody (d_l4_port_set_entry d) r;
  r ← thenRange igmpEntryBody (d_igmp_entry d) r;
  r ← thenRange etherEntryBody (d_ether_type_entry d) r;
  r ← thenRange ipProtEntryBody (d_ip_protocol_entry d) r;
  thenRange algEntryBody (d_algorithm_entry d) r.

End Encode.

(** ** Run-time panics

    A nil pointer dereference or an index out of range is not an [error]
    value: it unwinds the operation. *)
Inductive Panic := NilDereference | IndexOutOfRange.

Inductive outcome (A : Type) :=
  | Returned (a : A)
  | Panicked (p : Panic).
Arguments Returned {A} a.
Arguments Panicked {A} p.

#[export] Instance outcome_ret : MRet outcome := λ A a, Returned a.
#[export] Instance outcome_bind : MBind outcome :=
  λ A B f m, match m with Returned a => f a | Panicked p => Panicked p end.

(** [*p] *)
Definition deref {A} (p : option A) : outcome A :=
  match p with
  | Some a => Returned a
  | None => Panicked NilDereference
  end.

(** [s[0]] *)
Definition index0 {A} (s : list A) : outcome A :=
  match s with
  | a :: _ => Returned a
  | [] => Panicked IndexOutOfRange
  end.

(** ** Decode: wire records to configuration *)

Definition filterServiceEntryDisplayName (entryDisplayName entryID : string)
  : string :=
  if decide (entryDisplayName = entryID) then "" else entryDisplayName.

(** The six slices the loop of [resourceNsxtPolicyServiceRead] appends to. *)
Record EntryLists := mkEntryLists {
  icmpEntriesList : list Elem;
  l4EntriesList : list Elem;
  igmpEntriesList : list Elem;
  etherEntriesList : list Elem;
  ipProtEntriesList : list Elem;
  algEntriesList : list Elem }.

(** [var icmpEntriesList []map[string]interface{}] and the five others. *)
Definition nilEntryLists : EntryLists := mkEntryLists [] [] [] [] [] [].

(** [xEntriesList = append(xEntriesList, elem)], by the variant of [x]. *)
Definition appendEntry (b : BindingType) (elem : Elem) (l : EntryLists)
  : EntryLists :=
  let '(mkEntryLists icmp l4 igmp ether ipProt alg) := l in
  match b with
  | ICMPTypeServiceEntryBindingType =>
      mkEntryLists (icmp ++ [elem]) l4 igmp ether ipProt alg
  | L4PortSetServiceEntryBindingType =>
      mkEntryLists icmp (l4 ++ [elem]) igmp ether ipProt alg
  | IGMPTypeServiceEntryBindingType =>
      mkEntryLists icmp l4 (igmp ++ [elem]) ether ipProt alg
  | EtherTypeServiceEntryBindingType =>
      mkEntryLists icmp l4 igmp (ether ++ [elem]) ipProt alg
  | IPProtocolServiceEntryBindingType =>
      mkEntryLists icmp l4 igmp ether (ipProt ++ [elem]) alg
  | ALGTypeServiceEntryBindingType =>
      mkEntryLists icmp l4 igmp ether ipProt (alg ++ [elem])
  end.

(** The collection of a variant. *)
Definition entriesOf (b : BindingType) (l : EntryLists) : list Elem :=
  match b with
  | ICMPTypeServiceEntryBindingType => icmpEntriesList l
  | L4PortSetServiceEntryBindingType => l4EntriesList l
  | IGMPTypeServiceEntryBindingType => igmpEntriesList l
  | EtherTypeServiceEntryBindingType => etherEntriesList l
  | IPProtocolServiceEntryBindingType => ipProtEntriesList l
  | ALGTypeServiceEntryBindingType => algEntriesList l
  end.

Section Decode.
Context {conv : TypeConverter}.

(** The body of [for _, entry := range obj.ServiceEntries]: the nested
    trials, each success filling [elem] and appending it; the last
    failure returns [igmpErrs[0]]. *)
Definition decodeEntry (entry : StructValue) (l : EntryLists)
  : outcome (EntryLists + error) :=
  let elem : Elem := ∅ in
  match ConvertToGolang entry ICMPTypeServiceEntryBindingType with
  | Converted serviceEntry =>
      displayName ← deref (ICMPTypeServiceEntry.DisplayName serviceEntry);
      id ← deref (ICMPTypeServiceEntry.Id serviceEntry);
      let elem := <["display_name" :=
        VString (filterServiceEntryDisplayName displayName id)]> elem in
      let elem := <["description" :=
        VStringPtr (ICMPTypeServiceEntry.Description serviceEntry)]> elem in
      let elem :=
        match ICMPTypeServiceEntry.IcmpType serviceEntry with
        | Some icmpType =>
            <["icmp_type" := VString (strconv.Itoa icmpType)]> elem
        | None => <["icmp_type" := VString ""]> elem
        end in
      let elem :=
        match ICMPTypeServiceEntry.IcmpCode serviceEntry with
        | Some icmpCode =>
            <["icmp_code" := VString (strconv.Itoa icmpCode)]> elem
        | None => <["icmp_code" := VString ""]> elem
        end in
      let elem := <["protocol" :=
        VString (ICMPTypeServiceEntry.Protocol serviceEntry)]> elem in
      mret (inl (appendEntry ICMPTypeServiceEntryBindingType elem l))
  | ConvertErrors _ _ =>
  match ConvertToGolang entry L4PortSetServiceEntryBindingType with
  | Converted serviceEntry =>
      displayName ← deref (L4PortSetServiceEntry.DisplayName serviceEntry);
      id ← deref (L4PortSetServiceEntry.Id serviceEntry);
      let elem := <["display_name" :=
        VString (filterServiceEntryDisplayName displayName id)]> elem in
      let elem := <["description" :=
        VStringPtr (L4PortSetServiceEntry.Description serviceEntry)]> elem in
      let elem := <["destination_ports" :=
        VStringList (L4PortSetServiceEntry.DestinationPorts serviceEntry)]>
        elem in
      let elem := <["source_ports" :=
        VStringList (L4PortSetServiceEntry.SourcePorts serviceEntry)]>
        elem in
      let elem := <["protocol" :=
        VString (L4PortSetServiceEntry.L4Protocol serviceEntry)]> elem in
      mret (inl (appendEntry L4PortSetServiceEntryBindingType elem l))
  | ConvertErrors _ _ =>
  match ConvertToGolang entry EtherTypeServiceEntryBindingType with
  | Converted serviceEntry =>
      displayName ← deref (EtherTypeServiceEntry.DisplayName serviceEntry);
      id ← deref (EtherTypeServiceEntry.Id serviceEntry);
      let elem := <["display_name" :=
        VString (filterServiceEntryDisplayName displayName id)]> elem in
      let elem := <["description" :=
        VStringPtr (EtherTypeServiceEntry.Description serviceEntry)]> elem in
      let elem := <["ether_type" :=
        VInt64 (EtherTypeServiceEntry.EtherType serviceEntry)]> elem in
      mret (inl (appendEntry EtherTypeServiceEntryBindingType elem l))
  | ConvertErrors _ _ =>
  match ConvertToGolang entry IPProtocolServiceEntryBindingType with
  | Converted serviceEntry =>
      displayName ← deref (IPProtocolServiceEntry.DisplayName serviceEntry);
      id ← deref (IPProtocolServiceEntry.Id serviceEntry);
      let elem := <["display_name" :=
        VString (filterServiceEntryDisplayName displayName id)]> elem in
      let elem := <["description" :=
        VStringPtr (IPProtocolServiceEntry.Description serviceEntry)]>
        elem in
      let elem := <["protocol" :=
        VInt64 (IPProtocolServiceEntry.ProtocolNumber serviceEntry)]>
        elem in
      mret (inl (appendEntry IPProtocolServiceEntryBindingType elem l))
  | ConvertErrors _ _ =>
  match ConvertToGolang entry ALGTypeServiceEntryBindingType with
  | Converted serviceEntry =>
      displayName ← deref (ALGTypeServiceEntry.DisplayName serviceEntry);
      id ← deref (ALGTypeServiceEntry.Id serviceEntry);
      let elem := <["display_name" :=
        VString (filterServiceEntryDisplayName displayName id)]> elem in
      let elem := <["description" :=
        VStringPtr (ALGTypeServiceEntry.Description serviceEntry)]> elem in
      let elem := <["algorithm" :=
        VString (ALGTypeServiceEntry.Alg serviceEntry)]> elem in
      destinationPort ←
        index0 (ALGTypeServiceEntry.DestinationPorts serviceEntry);
      let elem := <["destination_port" := VString destinationPort]> elem in
      let elem := <["source_ports" :=
        VStringList (ALGTypeServiceEntry.SourcePorts serviceEntry)]> elem in
      mret (inl (appendEntry ALGTypeServiceEntryBindingType elem l))
  | ConvertErrors _ _ =>
  match ConvertToGolang entry IGMPTypeServiceEntryBindingType with
  | Converted serviceEntry =>
      displayName ← deref (IGMPTypeServiceEntry.DisplayName serviceEntry);
      id ← deref (IGMPTypeServiceEntry.Id serviceEntry);
      let elem := <["display_name" :=
        VString (filterServiceEntryDisplayName displayName id)]> elem in
      let elem := <["description" :=
        VStringPtr (IGMPTypeServiceEntry.Description serviceEntry)]> elem in
      mret (inl (appendEntry IGMPTypeServiceEntryBindingType elem l))
  | ConvertErrors igmpErr _ =>
      (* Unknown service entry type *)
      mret (inr igmpErr)
  end end end end end end.

(** The loop: the first record that fails ends the function. *)
Fixpoint rangeServiceEntries (entries : list StructValue) (l : EntryLists)
  : outcome (EntryLists + error) :=
  match entries with
  | [] => mret (inl l)
  | entry :: rest =>
      r ← decodeEntry entry l;
      match r with
      | inl l' => rangeServiceEntries rest l'
      | inr err => mret (inr err)
      end
  end.

End Decode.

(** ** The remote services client and the resource operations *)

Module Service.
(** [model.Service], with the fields the operations set or read. *)
Record t {conv : TypeConverter} {Tag : Type} := mk {
  DisplayName : option string;
  Description : option string;
  Tags : list Tag;
  ServiceEntries : list StructValue;
  Revision : option Z;
  Path : option string }.
Arguments t {conv} Tag.
Arguments mk {conv Tag}.
End Service.

(** [infra.ServicesClient]: each call reads or changes the remote side. *)
Class ServicesClient {conv : TypeConverter} := {
  Tag : Type;
  Remote : Type;
  remote_Get : string → Remote → Service.t Tag + error;
  remote_Patch : string → Service.t Tag → Remote → option error * Remote;
  remote_Update :
    string → Service.t Tag → Remote → (Service.t Tag + error) * Remote;
  remote_Delete : string → Remote → option error * Remote }.

Section World.
Context {conv : TypeConverter} {acc : SchemaAccessor} {gen : UUIDGen}
        {cl : ServicesClient}.

(** The calls made on the client, in the order they were made. *)
Inductive RemoteCall :=
  | CallGet (id : string)
  | CallPatch (id : string) (obj : Service.t Tag)
  | CallUpdate (id : string) (obj : Service.t Tag)
  | CallDelete (id : string).

Definition isWrite (c : RemoteCall) : bool :=
  match c with
  | CallGet _ => false
  | CallPatch _ _ | CallUpdate _ _ | CallDelete _ => true
  end.

(** Everything an operation can read or change: the resource data [d]
    (a pointer in the source), the identifier generator, the remote side
    and the log of client calls. *)
Record World := mkWorld {
  rd : ResourceData;
  uuids : UUIDState;
  remote : Remote;
  calls : list RemoteCall }.

(** Operations: state passing over [World], cut short by a panic. *)
Definition M (A : Type) : Type := World → outcome A * World.

#[export] Instance M_ret : MRet M := λ A a w, (Returned a, w).
#[export] Instance M_bind : MBind M :=
  λ A B f m w,
    match m w with
    | (Returned a, w') => f a w'
    | (Panicked p, w') => (Panicked p, w')
    end.

Definition getD : M ResourceData := λ w, (Returned (rd w), w).

Definition modifyD (f : ResourceData → ResourceData) : M unit :=
  λ w, (Returned (), mkWorld (f (rd w)) (uuids w) (remote w) (calls w)).

(** [d.Set(key, value)] *)
Definition dSet (key : string) (v : SetValue) : M (option error) :=
  λ w, let '(d', err) := d_Set key v (rd w) in
       (Returned err, mkWorld d' (uuids w) (remote w) (calls w)).

Definition liftGen {A} (m : State UUIDState A) : M A :=
  λ w, let '(a, u') := m (uuids w) in
       (Returned a, mkWorld (rd w) u' (remote w) (calls w)).

Definition liftOutcome {A} (o : outcome A) : M A := λ w, (o, w).

Definition client_Get (id : string) : M (Service.t Tag + error) :=
  λ w, (Returned (remote_Get id (remote w)),
        mkWorld (rd w) (uuids w) (remote w) (calls w ++ [CallGet id])).

Definition client_Patch (id : string) (obj : Service.t Tag)
  : M (option error) :=
  λ w, let '(err, r') := remote_Patch id obj (remote w) in
       (Returned err,
        mkWorld (rd w) (uuids w) r' (calls w ++ [CallPatch id obj])).

Definition client_Update (id : string) (obj : Service.t Tag)
  : M (Service.t Tag + error) :=
  λ w, let '(res, r') := remote_Update id obj (remote w) in
       (Returned res,
        mkWorld (rd w) (uuids w) r' (calls w ++ [CallUpdate id obj])).

Definition client_Delete (id : string) : M (option error) :=
  λ w, let '(err, r') := remote_Delete id (remote w) in
       (Returned err,
        mkWorld (rd w) (uuids w) r' (calls w ++ [CallDelete id])).

(** The helpers of the provider that the operations call: id
    initialisation, tags, and the error handlers. [getOrGenerateID] is
    given the presence checker and may run it; [handleReadError] is
    given [d]. Logging is not modelled. *)
Class Helpers := {
  getOrGenerateID : (string → M bool) → M (string * option error);
  getPolicyTagsFromSchema : ResourceData → list Tag;
  setPolicyTagsInSchema : list Tag → ResourceData → ResourceData;
  isNotFoundError : error → bool;
  handleCreateError : string → string → error → error;
  handleReadError : string → string → error → M (option error);
  handleUpdateError : string → string → error → error;
  handleDeleteError : string → string → error → error }.

Context {hp : Helpers}.

Definition resourceNsxtPolicyServiceExists (id : string) : M bool :=
  r ← client_Get id;
  match r with
  | inl _ => mret true
  | inr err =>
      if isNotFoundError err then mret false
      else (* logAPIError("Error retrieving service", err) *) mret false
  end.

(** [err = d.Set(key, list); if err != nil { return err }] *)
Definition setOrReturn (key : string) (l : list Elem)
    (k : M (option error)) : M (option error) :=
  err ← dSet key (SetEntries l);
  match err with
  | Some e => mret (Some e)
  | None => k
  end.

(** The scalar attributes [resourceNsxtPolicyServiceRead] copies from
    the service it got, before it translates the entries. *)
Definition setServiceAttributes (id : string) (obj : Service.t Tag)
  : M unit :=
  _ ← dSet "display_name"
        (SetScalar (VStringPtr (Service.DisplayName obj)));
  _ ← dSet "description"
        (SetScalar (VStringPtr (Service.Description obj)));
  _ ← modifyD (setPolicyTagsInSchema (Service.Tags obj));
  _ ← dSet "nsx_id" (SetScalar (VString id));
  _ ← dSet "path" (SetScalar (VStringPtr (Service.Path obj)));
  _ ← dSet "revision" (SetScalar (VInt64Ptr (Service.Revision obj)));
  mret ().

(** The six [d.Set] calls that close the function. *)
Definition setEntryLists (l : EntryLists) : M (option error) :=
  setOrReturn "icmp_entry" (icmpEntriesList l) (
  setOrReturn "l4_port_set_entry" (l4EntriesList l) (
  setOrReturn "igmp_entry" (igmpEntriesList l) (
  setOrReturn "ether_type_entry" (etherEntriesList l) (
  setOrReturn "ip_protocol_entry" (ipProtEntriesList l) (
  setOrReturn "algorithm_entry" (algEntriesList l) (
  mret None)))))).

Definition resourceNsxtPolicyServiceRead : M (option error) :=
  d ← getD;
  let id := d_Id d in
  if decide (id = "") then
    mret (Some (errorString "Error obtaining service id"))
  else
    r ← client_Get id;
    match r with
    | inr err => handleReadError "Service" id err
    | inl obj =>
        _ ← setServiceAttributes id obj;
        (* Translate the returned service entries *)
        res ← liftOutcome
                (rangeServiceEntries (Service.ServiceEntries obj)
                   nilEntryLists);
        match res with
        | inr err => mret (Some err)
        | inl l => setEntryLists l
        end
    end.

Definition conversionError (errc : error) : error :=
  Errorf_v "Error during Service entries conversion: " errc.

Definition resourceNsxtPolicyServiceCreate : M (option error) :=
  (* Initialize resource Id and verify this ID is not yet used *)
  '(id, err) ← getOrGenerateID resourceNsxtPolicyServiceExists;
  match err with
  | Some err => mret (Some err)
  | None =>
      d ← getD;
      let displayName := d_GetString "display_name" d in
      let description := d_GetString "description" d in
      let tags := getPolicyTagsFromSchema d in
      '(serviceEntries, errc) ←
        liftGen (resourceNsxtPolicyServiceGetEntriesFromSchema d);
      match errc with
      | Some errc => mret (Some (conversionError errc))
      | None =>
          let obj := Service.mk (Some displayName) (Some description) tags
                       serviceEntries None None in
          (* Create the resource using PATCH *)
          err ← client_Patch id obj;
          match err with
          | Some err => mret (Some (handleCreateError "Service" id err))
          | None =>
              _ ← modifyD (d_SetId id);
              _ ← dSet "nsx_id" (SetScalar (VString id));
              resourceNsxtPolicyServiceRead
          end
      end
  end.

Definition resourceNsxtPolicyServiceUpdate : M (option error) :=
  d ← getD;
  let id := d_Id d in
  if decide (id = "") then
    mret (Some (errorString "Error obtaining service id"))
  else
    (* Read the rest of the configured parameters *)
    let displayName := d_GetString "display_name" d in
    let description := d_GetString "description" d in
    let revision := d_GetInt "revision" d in
    let tags := getPolicyTagsFromSchema d in
    '(serviceEntries, errc) ←
      liftGen (resourceNsxtPolicyServiceGetEntriesFromSchema d);
    match errc with
    | Some errc => mret (Some (conversionError errc))
    | None =>
        let obj := Service.mk (Some displayName) (Some description) tags
                     serviceEntries (Some revision) None in
        (* Update the resource using Update to totally replace the list
           of entries *)
        r ← client_Update id obj;
        match r with
        | inr err => mret (Some (handleUpdateError "Service" id err))
        | inl _ => resourceNsxtPolicyServiceRead
        end
    end.

Definition resourceNsxtPolicyServiceDelete : M (option error) :=
  d ← getD;
  let id := d_Id d in
  if decide (id = "") then
    mret (Some (errorString "Error obtaining service id"))
  else
    err ← client_Delete id;
    let err :=
      match err with
      | Some err => Some (handleDeleteError "Service" id err)
      | None => None
      end in
    mret None.

End World.

(** ** What the codec needs from the converter

    The source relies on the converter being a faithful codec of the six
    struct shapes: a struct converts to a record, the record converts back
    to the struct under its own binding type, and it is rejected by every
    binding type the decode loop tries earlier. *)

(** The order in which the decode loop tries the binding types. *)
Definition trialOrder : list BindingType :=
  [ ICMPTypeServiceEntryBindingType; L4PortSetServiceEntryBindingType;
    EtherTypeServiceEntryBindingType; IPProtocolServiceEntryBindingType;
    ALGTypeServiceEntryBindingType; IGMPTypeServiceEntryBindingType ].

Definition trialIndex (b : BindingType) : nat :=
  match b with
  | ICMPTypeServiceEntryBindingType => 0
  | L4PortSetServiceEntryBindingType => 1
  | EtherTypeServiceEntryBindingType => 2
  | IPProtocolServiceEntryBindingType => 3
  | ALGTypeServiceEntryBindingType => 4
  | IGMPTypeServiceEntryBindingType => 5
  end.

Definition isConverted {A} (c : converted A) : bool :=
  match c with Converted _ => true | ConvertErrors _ _ => false end.

Class ConverterLaws (conv : TypeConverter) : Prop := {
  vapi_total : ∀ b (x : golang b), isConverted (ConvertToVapi b x) = true;
  golang_vapi : ∀ b (x : golang b) sv,
    ConvertToVapi b x = Converted sv → ConvertToGolang sv b = Converted x;
  golang_earlier : ∀ b b' (x : golang b) sv,
    ConvertToVapi b x = Converted sv → (trialIndex b' < trialIndex b)%nat →
    isConverted (ConvertToGolang sv b') = false }.

(** The variant the specification assigns to a record: the first binding
    type of the trial order whose decode succeeds. *)
Definition firstDecodable {conv : TypeConverter} (entry : StructValue)
  : option BindingType :=
  List.find (λ b, isConverted (ConvertToGolang entry b)) trialOrder.

(** What the operations need from the schema accessor: the resource id
    is what [SetId] made it, and [Set] leaves it alone. *)
Class AccessorLaws (acc : SchemaAccessor) : Prop := {
  Id_SetId : ∀ id d, d_Id (d_SetId id d) = id;
  Id_Set : ∀ k v d, d_Id (d_Set k v d).1 = d_Id d }.

(** ** Vocabulary of the properties *)

Section Vocabulary.
Context {conv : TypeConverter} {acc : SchemaAccessor} {gen : UUIDGen}
        {cl : ServicesClient} {hp : Helpers}.

(** Every binding type tried before [b] rejects the record. *)
Definition earlierFail entry b : Prop :=
  ∀ b', (trialIndex b' < trialIndex b)%nat →
        isConverted (ConvertToGolang entry b') = false.

(** The record decodes as [b], and as nothing tried before [b]. *)
Definition decodesAs entry b (x : golang b) : Prop :=
  ConvertToGolang entry b = Converted x ∧ earlierFail entry b.

(** An Algorithm struct has a destination port to read. *)
Definition portsPresent b : golang b → Prop :=
  match b with
  | ALGTypeServiceEntryBindingType =>
      λ x, ALGTypeServiceEntry.DestinationPorts x ≠ []
  | _ => λ _, True
  end.

(** What the loop body dereferences or indexes is there. *)
Definition readable b (x : golang b) : Prop :=
  is_Some (entryDisplayName b x) ∧ is_Some (entryId b x) ∧ portsPresent b x.

(** The world in which the entries are translated: [client.Get] has been
    logged and the scalar attributes have been set. *)
Definition attributesSet (w : World) (obj : Service.t Tag) : World :=
  (setServiceAttributes (d_Id (rd w)) obj
     (mkWorld (rd w) (uuids w) (remote w)
        (calls w ++ [CallGet (d_Id (rd w))]))).2.

(** [r] is the record a loop body makes of [e], in some generator state. *)
Definition encodedBy {A} (body : A → State UUIDState (StructValue + error))
    (e : A) (r : StructValue) : Prop :=
  ∃ u u', body e u = (inl r, u').

(** [recs] are the records of the first entries of a collection, one per
    entry and in the collection's order. *)
Definition segment {A} (body : A → State UUIDState (StructValue + error))
    (entries : list A) (recs : list StructValue) : Prop :=
  Forall2 (encodedBy body) (take (length recs) entries) recs.

(** How a loop ended: on every entry, or at the entry whose body
    returned [er]. *)
Definition loopEnd {A} (body : A → State UUIDState (StructValue + error))
    (entries : list A) (recs : list StructValue) (err : option error)
  : Prop :=
  match err with
  | None => length recs = length entries
  | Some er =>
      ∃ e u, entries !! length recs = Some e ∧ (body e u).1 = inr er
  end.

(** The struct literals of the six loops. *)
Definition icmpStruct (e : icmp_entry.t) (typePtr codePtr : option Z)
    (id : string) : ICMPTypeServiceEntry.t :=
  ICMPTypeServiceEntry.mk (Some id) (Some (icmp_entry.display_name e))
    (Some (icmp_entry.description e)) typePtr codePtr
    (icmp_entry.protocol e) ServiceEntry_RESOURCE_TYPE_ICMPTYPESERVICEENTRY.

Definition l4Struct (e : l4_port_set_entry.t) (id : string)
  : L4PortSetServiceEntry.t :=
  L4PortSetServiceEntry.mk (Some id)
    (Some (l4_port_set_entry.display_name e))
    (Some (l4_port_set_entry.description e))
    (l4_port_set_entry.destination_ports e)
    (l4_port_set_entry.source_ports e) (l4_port_set_entry.protocol e)
    ServiceEntry_RESOURCE_TYPE_L4PORTSETSERVICEENTRY.

Definition igmpStruct (e : igmp_entry.t) (id : string)
  : IGMPTypeServiceEntry.t :=
  IGMPTypeServiceEntry.mk (Some id) (Some (igmp_entry.display_name e))
    (Some (igmp_entry.description e))
    ServiceEntry_RESOURCE_TYPE_IGMPTYPESERVICEENTRY.

Definition etherStruct (e : ether_type_entry.t) (id : string)
  : EtherTypeServiceEntry.t :=
  EtherTypeServiceEntry.mk (Some id)
    (Some (ether_type_entry.display_name e))
    (Some (ether_type_entry.description e)) (ether_type_entry.ether_type e)
    ServiceEntry_RESOURCE_TYPE_ETHERTYPESERVICEENTRY.

Definition ipProtStruct (e : ip_protocol_entry.t) (id : string)
  : IPProtocolServiceEntry.t :=
  IPProtocolServiceEntry.mk (Some id)
    (Some (ip_protocol_entry.display_name e))
    (Some (ip_protocol_entry.description e)) (ip_protocol_entry.protocol e)
    ServiceEntry_RESOURCE_TYPE_IPPROTOCOLSERVICEENTRY.

Definition algStruct (e : algorithm_entry.t) (id : string)
  : ALGTypeServiceEntry.t :=
  ALGTypeServiceEntry.mk (Some id) (Some (algorithm_entry.display_name e))
    (Some (algorithm_entry.description e)) (algorithm_entry.algorithm e)
    [algorithm_entry.destination_port e] (algorithm_entry.source_ports e)
    ServiceEntry_RESOURCE_TYPE_ALGTYPESERVICEENTRY.

(** A non-empty string that [strconv.Atoi] rejects. *)
Definition failsParsing (v : string) : Prop :=
  v ≠ "" ∧ ∃ err, strconv.Atoi v = inr err.

(** An ICMP entry with a malformed type or code. *)
Definition malformed (e : icmp_entry.t) : Prop :=
  failsParsing (icmp_entry.icmp_type e) ∨
  failsParsing (icmp_entry.icmp_code e).

(** An optional integer field that is empty or that [strconv.Atoi]
    accepts, and an ICMP entry whose type and code are such. *)
Definition parsesField (v : string) : Prop :=
  v = "" ∨ ∃ n, strconv.Atoi v = inl n.

Definition parses (e : icmp_entry.t) : Prop :=
  parsesField (icmp_entry.icmp_type e) ∧
  parsesField (icmp_entry.icmp_code e).

(** What an optional integer string reads back as: the decimal rendering
    of the integer it parsed to, or the empty string. *)
Definition canonical (v : string) : string :=
  match optionalAtoi v with
  | inl (Some n) => strconv.Itoa n
  | _ => ""
  end.

(** The identifier a record carries, read under its binding type. *)
Definition recordId (b : BindingType) (r : StructValue) : option string :=
  match ConvertToGolang r b with
  | Converted x => entryId b x
  | ConvertErrors _ _ => None
  end.

(** The display name comes back through the filter, against the
    identifier of the record. *)
Definition nameBack (dn : string) (b : BindingType) (r : StructValue)
    (m : Elem) : Prop :=
  ∃ id, recordId b r = Some id ∧
        m !! "display_name"
        = Some (VString (filterServiceEntryDisplayName dn id)).

Definition icmpBack (e : icmp_entry.t) (r : StructValue) (m : Elem)
  : Prop :=
  nameBack (icmp_entry.display_name e) ICMPTypeServiceEntryBindingType r m ∧
  m !! "description" = Some (VStringPtr (Some (icmp_entry.description e))) ∧
  m !! "protocol" = Some (VString (icmp_entry.protocol e)) ∧
  m !! "icmp_type" = Some (VString (canonical (icmp_entry.icmp_type e))) ∧
  m !! "icmp_code" = Some (VString (canonical (icmp_entry.icmp_code e))).

Definition l4Back (e : l4_port_set_entry.t) (r : StructValue) (m : Elem)
  : Prop :=
  nameBack (l4_port_set_entry.display_name e)
    L4PortSetServiceEntryBindingType r m ∧
  m !! "description"
  = Some (VStringPtr (Some (l4_port_set_entry.description e))) ∧
  m !! "destination_ports"
  = Some (VStringList (l4_port_set_entry.destination_ports e)) ∧
  m !! "source_ports"
  = Some (VStringList (l4_port_set_entry.source_ports e)) ∧
  m !! "protocol" = Some (VString (l4_port_set_entry.protocol e)).

Definition igmpBack (e : igmp_entry.t) (r : StructValue) (m : Elem)
  : Prop :=
  nameBack (igmp_entry.display_name e) IGMPTypeServiceEntryBindingType r m ∧
  m !! "description" = Some (VStringPtr (Some (igmp_entry.description e))).

Definition etherBack (e : ether_type_entry.t) (r : StructValue) (m : Elem)
  : Prop :=
  nameBack (ether_type_entry.display_name e)
    EtherTypeServiceEntryBindingType r m ∧
  m !! "description"
  = Some (VStringPtr (Some (ether_type_entry.description e))) ∧
  m !! "ether_type" = Some (VInt64 (ether_type_entry.ether_type e)).

Definition ipProtBack (e : ip_protocol_entry.t) (r : StructValue)
    (m : Elem) : Prop :=
  nameBack (ip_protocol_entry.display_name e)
    IPProtocolServiceEntryBindingType r m ∧
  m !! "description"
  = Some (VStringPtr (Some (ip_protocol_entry.description e))) ∧
  m !! "protocol" = Some (VInt64 (ip_protocol_entry.protocol e)).

Definition algBack (e : algorithm_entry.t) (r : StructValue) (m : Elem)
  : Prop :=
  nameBack (algorithm_entry.display_name e)
    ALGTypeServiceEntryBindingType r m ∧
  m !! "description"
  = Some (VStringPtr (Some (algorithm_entry.description e))) ∧
  m !! "algorithm" = Some (VString (algorithm_entry.algorithm e)) ∧
  m !! "destination_port"
  = Some (VString (algorithm_entry.destination_port e)) ∧
  m !! "source_ports"
  = Some (VStringList (algorithm_entry.source_ports e)).

(** [ms] appended, one by one, to the list of variant [b]. *)
Definition appendEntries (b : BindingType) (ms : list Elem)
    (l : EntryLists) : EntryLists :=
  foldl (λ l m, appendEntry b m l) l ms.

(** The record decodes to [m], appended to the list of [b]. *)
Definition decodesTo (b : BindingType) (r : StructValue) (m : Elem)
  : Prop :=
  ∀ l, decodeEntry r l = Returned (inl (appendEntry b m l)).

(** The identifiers the generator gives on its next [n] calls, and the
    state it is in after them. *)
Fixpoint drawn (n : nat) (u : UUIDState) : list string :=
  match n with
  | O => []
  | S n' => (newUUID u).1 :: drawn n' (newUUID u).2
  end.

Fixpoint advance (n : nat) (u : UUIDState) : UUIDState :=
  match n with
  | O => u
  | S n' => advance n' (newUUID u).2
  end.

(** The identifier a record carries, read under the variant the decode
    loop gives it. *)
Definition carriedId (r : StructValue) : option string :=
  match firstDecodable r with
  | Some b => recordId b r
  | None => None
  end.

(** The number of elements in the six lists together. *)
Definition totalEntries (l : EntryLists) : nat :=
  (length (icmpEntriesList l) + length (l4EntriesList l)
   + length (igmpEntriesList l) + length (etherEntriesList l)
   + length (ipProtEntriesList l) + length (algEntriesList l))%nat.

(** The keys of the [Elem] schema of each entry collection, as
    [resourceNsxtPolicyService] declares them. *)
Definition entrySchemaKeys (b : BindingType) : gset string :=
  match b with
  | ICMPTypeServiceEntryBindingType =>
      {[ "display_name"; "description"; "protocol"; "icmp_type";
         "icmp_code" ]}
  | L4PortSetServiceEntryBindingType =>
      {[ "display_name"; "description"; "destination_ports";
         "source_ports"; "protocol" ]}
  | IGMPTypeServiceEntryBindingType => {[ "display_name"; "description" ]}
  | EtherTypeServiceEntryBindingType =>
      {[ "display_name"; "description"; "ether_type" ]}
  | IPProtocolServiceEntryBindingType =>
      {[ "display_name"; "description"; "protocol" ]}
  | ALGTypeServiceEntryBindingType =>
      {[ "display_name"; "description"; "destination_port"; "source_ports";
         "algorithm" ]}
  end.

(** An optional integer string in the form [strconv.Itoa] writes, within
    the range the schema admits for ICMP type and code. *)
Definition decimalField (v : string) : Prop :=
  v = "" ∨ ∃ n, 0 ≤ n ≤ 255 ∧ v = strconv.Itoa n.

(** The object literals of create and update: [obj := model.Service{...}]. *)
Definition createObject (d : ResourceData)
    (serviceEntries : list StructValue) : Service.t Tag :=
  Service.mk (Some (d_GetString "display_name" d))
    (Some (d_GetString "description" d)) (getPolicyTagsFromSchema d)
    serviceEntries None None.

Definition updateObject (d : ResourceData)
    (serviceEntries : list StructValue) : Service.t Tag :=
  Service.mk (Some (d_GetString "display_name" d))
    (Some (d_GetString "description" d)) (getPolicyTagsFromSchema d)
    serviceEntries (Some (d_GetInt "revision" d)) None.

(** The world after a call on the client has been logged. *)
Definition logged (w : World) (c : RemoteCall) : World :=
  mkWorld (rd w) (uuids w) (remote w) (calls w ++ [c]).

(** Two worlds with the same remote side, call log and generator. *)
Definition sameOutside (w w' : World) : Prop :=
  remote w' = remote w ∧ calls w' = calls w ∧ uuids w' = uuids w.

(** A loop body draws one identifier for the record it makes, and none
    when it fails. *)
Definition drawsOne {A} (body : A → State UUIDState (StructValue + error))
  : Prop :=
  ∀ e u,
    match body e u with
    | (inl r, u') =>
        u' = (newUUID u).2 ∧ carriedId r = Some (newUUID u).1
    | (inr _, u') => u' = u
    end.

(** The records so far carry the identifiers drawn so far, in order. *)
Definition idsInOrder (u0 : UUIDState) (res : list StructValue)
    (u : UUIDState) : Prop :=
  carriedId <$> res = Some <$> drawn (length res) u0 ∧
  u = advance (length res) u0.

End Vocabulary.

(** ** A reference environment

    Concrete collaborators on which the operations can be run: a
    structural converter over field maps, a counter for identifiers, a
    resource data record, and an in-memory remote side. *)

Inductive DataValue :=
  | StringValue (s : string)
  | IntegerValue (i : Z)
  | ListValue (l : list string).

Abbreviation Fields := (gmap string DataValue).

Definition putOptional (k : string) (o : option DataValue) (m : Fields)
  : Fields :=
  match o with Some v => <[k := v]> m | None => m end.

Definition putCommon (id displayName description : option string)
    (resourceType : string) (m : Fields) : Fields :=
  putOptional "id" (StringValue <$> id)
    (putOptional "display_name" (StringValue <$> displayName)
       (putOptional "description" (StringValue <$> description)
          (<["resource_type" := StringValue resourceType]> m))).

Definition refToVapi (b : BindingType) : golang b → converted Fields :=
  match b with
  | ICMPTypeServiceEntryBindingType => λ x,
      Converted
        (putCommon (ICMPTypeServiceEntry.Id x)
           (ICMPTypeServiceEntry.DisplayName x)
           (ICMPTypeServiceEntry.Description x)
           (ICMPTypeServiceEntry.ResourceType x)
           (putOptional "icmp_type"
              (IntegerValue <$> ICMPTypeServiceEntry.IcmpType x)
              (putOptional "icmp_code"
                 (IntegerValue <$> ICMPTypeServiceEntry.IcmpCode x)
                 {[ "protocol" :=
                      StringValue (ICMPTypeServiceEntry.Protocol x) ]})))
  | L4PortSetServiceEntryBindingType => λ x,
      Converted
        (putCommon (L4PortSetServiceEntry.Id x)
           (L4PortSetServiceEntry.DisplayName x)
           (L4PortSetServiceEntry.Description x)
           (L4PortSetServiceEntry.ResourceType x)
           (<["destination_ports" :=
                ListValue (L4PortSetServiceEntry.DestinationPorts x)]>
              (<["source_ports" :=
                   ListValue (L4PortSetServiceEntry.SourcePorts x)]>
                 {[ "l4_protocol" :=
                      StringValue (L4PortSetServiceEntry.L4Protocol x) ]})))
  | IGMPTypeServiceEntryBindingType => λ x,
      Converted
        (putCommon (IGMPTypeServiceEntry.Id x)
           (IGMPTypeServiceEntry.DisplayName x)
           (IGMPTypeServiceEntry.Description x)
           (IGMPTypeServiceEntry.ResourceType x) ∅)
  | EtherTypeServiceEntryBindingType => λ x,
      Converted
        (putCommon (EtherTypeServiceEntry.Id x)
           (EtherTypeServiceEntry.DisplayName x)
           (EtherTypeServiceEntry.Description x)
           (EtherTypeServiceEntry.ResourceType x)
           {[ "ether_type" :=
                IntegerValue (EtherTypeServiceEntry.EtherType x) ]})
  | IPProtocolServiceEntryBindingType => λ x,
      Converted
        (putCommon (IPProtocolServiceEntry.Id x)
           (IPProtocolServiceEntry.DisplayName x)
           (IPProtocolServiceEntry.Description x)
           (IPProtocolServiceEntry.ResourceType x)
           {[ "protocol_number" :=
                IntegerValue (IPProtocolServiceEntry.ProtocolNumber x) ]})
  | ALGTypeServiceEntryBindingType => λ x,
      Converted
        (putCommon (ALGTypeServiceEntry.Id x)
           (ALGTypeServiceEntry.DisplayName x)
           (ALGTypeServiceEntry.Description x)
           (ALGTypeServiceEntry.ResourceType x)
           (<["destination_ports" :=
                ListValue (ALGTypeServiceEntry.DestinationPorts x)]>
              (<["source_ports" :=
                   ListValue (ALGTypeServiceEntry.SourcePorts x)]>
                 {[ "alg" := StringValue (ALGTypeServiceEntry.Alg x) ]})))
  end.

(** Field readers: a required field must be present with the right type,
    an optional one may be missing. *)
Definition missing {A} (k : string) : converted A :=
  ConvertErrors (externalError k) [].

Definition optString (k : string) (m : Fields) : converted (option string) :=
  match m !! k with
  | None => Converted None
  | Some (StringValue s) => Converted (Some s)
  | Some _ => missing k
  end.

Definition optInteger (k : string) (m : Fields) : converted (option Z) :=
  match m !! k with
  | None => Converted None
  | Some (IntegerValue i) => Converted (Some i)
  | Some _ => missing k
  end.

Definition reqString (k : string) (m : Fields) : converted string :=
  match m !! k with
  | Some (StringValue s) => Converted s
  | _ => missing k
  end.

Definition reqInteger (k : string) (m : Fields) : converted Z :=
  match m !! k with
  | Some (IntegerValue i) => Converted i
  | _ => missing k
  end.

Definition reqList (k : string) (m : Fields) : converted (list string) :=
  match m !! k with
  | Some (ListValue l) => Converted l
  | _ => missing k
  end.

#[export] Instance converted_ret : MRet converted := λ A a, Converted a.
#[export] Instance converted_bind : MBind converted :=
  λ A B f c,
    match c with
    | Converted a => f a
    | ConvertErrors e es => ConvertErrors e es
    end.

Definition refToGolang (m : Fields) (b : BindingType) : converted (golang b) :=
  match b with
  | ICMPTypeServiceEntryBindingType =>
      protocol ← reqString "protocol" m;
      resourceType ← reqString "resource_type" m;
      id ← optString "id" m;
      displayName ← optString "display_name" m;
      description ← optString "description" m;
      icmpType ← optInteger "icmp_type" m;
      icmpCode ← optInteger "icmp_code" m;
      mret (ICMPTypeServiceEntry.mk id displayName description icmpType
              icmpCode protocol resourceType)
  | L4PortSetServiceEntryBindingType =>
      l4Protocol ← reqString "l4_protocol" m;
      resourceType ← reqString "resource_type" m;
      destinationPorts ← reqList "destination_ports" m;
      sourcePorts ← reqList "source_ports" m;
      id ← optString "id" m;
      displayName ← optString "display_name" m;
      description ← optString "description" m;
      mret (L4PortSetServiceEntry.mk id displayName description
              destinationPorts sourcePorts l4Protocol resourceType)
  | IGMPTypeServiceEntryBindingType =>
      resourceType ← reqString "resource_type" m;
      id ← optString "id" m;
      displayName ← optString "display_name" m;
      description ← optString "description" m;
      mret (IGMPTypeServiceEntry.mk id displayName description resourceType)
  | EtherTypeServiceEntryBindingType =>
      etherType ← reqInteger "ether_type" m;
      resourceType ← reqString "resource_type" m;
      id ← optString "id" m;
      displayName ← optString "display_name" m;
      description ← optString "description" m;
      mret (EtherTypeServiceEntry.mk id displayName description etherType
              resourceType)
  | IPProtocolServiceEntryBindingType =>
      protocolNumber ← reqInteger "protocol_number" m;
      resourceType ← reqString "resource_type" m;
      id ← optString "id" m;
      displayName ← optString "display_name" m;
      description ← optString "description" m;
      mret (IPProtocolServiceEntry.mk id displayName description
              protocolNumber resourceType)
  | ALGTypeServiceEntryBindingType =>
      alg ← reqString "alg" m;
      resourceType ← reqString "resource_type" m;
      destinationPorts ← reqList "destination_ports" m;
      sourcePorts ← reqList "source_ports" m;
      id ← optString "id" m;
      displayName ← optString "display_name" m;
      description ← optString "description" m;
      mret (ALGTypeServiceEntry.mk id displayName description alg
              destinationPorts sourcePorts resourceType)
  end.

#[export] Instance refConverter : TypeConverter := {|
  StructValue := Fields;
  ConvertToVapi := refToVapi;
  ConvertToGolang := refToGolang |}.

(** Identifiers from a counter. *)
#[export] Instance refUUIDGen : UUIDGen := {|
  UUIDState := nat;
  newUUID := λ n, (String.append "uuid-" (strconv.Itoa (Z.of_nat n)), S n) |}.

(** Resource data: the id, the scalar fields, the six collections, and the
    log of what [Set] received. [Set] never rejects a value here. *)
Record RefData := mkRefData {
  ref_id : string;
  ref_strings : gmap string string;
  ref_ints : gmap string Z;
  ref_icmp : list icmp_entry.t;
  ref_l4 : list l4_port_set_entry.t;
  ref_igmp : list igmp_entry.t;
  ref_ether : list ether_type_entry.t;
  ref_ipProt : list ip_protocol_entry.t;
  ref_alg : list algorithm_entry.t;
  ref_written : list (string * SetValue) }.

#[export] Instance refAccessor : SchemaAccessor := {|
  ResourceData := RefData;
  d_Id := ref_id;
  d_SetId := λ id d,
    mkRefData id (ref_strings d) (ref_ints d) (ref_icmp d) (ref_l4 d)
      (ref_igmp d) (ref_ether d) (ref_ipProt d) (ref_alg d) (ref_written d);
  d_GetString := λ k d, default "" (ref_strings d !! k);
  d_GetInt := λ k d, default 0 (ref_ints d !! k);
  d_icmp_entry := ref_icmp;
  d_l4_port_set_entry := ref_l4;
  d_igmp_entry := ref_igmp;
  d_ether_type_entry := ref_ether;
  d_ip_protocol_entry := ref_ipProt;
  d_algorithm_entry := ref_alg;
  d_Set := λ k v d,
    (mkRefData (ref_id d) (ref_strings d) (ref_ints d) (ref_icmp d)
       (ref_l4 d) (ref_igmp d) (ref_ether d) (ref_ipProt d) (ref_alg d)
       (ref_written d ++ [(k, v)]), None) |}.

(** The remote side: services by id. *)
Definition notFound : error := externalError "not found".

#[export] Instance refClient : ServicesClient := {|
  Tag := string * string;
  Remote := gmap string (Service.t (string * string));
  remote_Get := λ id r,
    match r !! id with Some obj => inl obj | None => inr notFound end;
  remote_Patch := λ id obj r, (None, <[id := obj]> r);
  remote_Update := λ id obj r,
    match r !! id with
    | Some _ => (inl obj, <[id := obj]> r)
    | None => (inr notFound, r)
    end;
  remote_Delete := λ id r,
    match r !! id with
    | Some _ => (None, delete id r)
    | None => (Some notFound, r)
    end |}.

(** Helpers: id initialisation takes the configured [nsx_id] and runs the
    presence checker on it, or draws a fresh identifier when none is
    configured; the handlers wrap the error, and a read of a missing
    service clears the resource id. *)
#[export] Instance refHelpers : Helpers := {|
  getOrGenerateID := λ presenceChecker,
    d ← getD;
    let id := d_GetString "nsx_id" d in
    if decide (id = "") then
      id ← liftGen newUUID; mret (id, None)
    else
      exists_ ← presenceChecker id;
      if (exists_ : bool) then
        mret ("", Some (errorString "Resource already exists"))
      else mret (id, None);
  getPolicyTagsFromSchema := λ _, [];
  setPolicyTagsInSchema := λ _ d, d;
  isNotFoundError := λ e, bool_decide (e = notFound);
  handleCreateError := λ _ _ err, Errorf_v "Failed to create: " err;
  handleReadError := λ _ _ err,
    if bool_decide (err = notFound) then
      _ ← modifyD (d_SetId ""); mret None
    else mret (Some (Errorf_v "Failed to read: " err));
  handleUpdateError := λ _ _ err, Errorf_v "Failed to update: " err;
  handleDeleteError := λ _ _ err, Errorf_v "Failed to delete: " err |}.

(** A resource data record holding only entry collections. *)
Definition refConfig (id : string) (nsx_id : string)
    (icmp : list icmp_entry.t) (l4 : list l4_port_set_entry.t)
    (igmp : list igmp_entry.t) (ether : list ether_type_entry.t)
    (ipProt : list ip_protocol_entry.t) (alg : list algorithm_entry.t)
  : RefData :=
  mkRefData id {[ "nsx_id" := nsx_id ]} ∅ icmp l4 igmp ether ipProt alg [].

Definition refWorld (d : RefData) : World := mkWorld d 0%nat ∅ [].
(** ** Concrete inputs *)

Definition icmp_ping : icmp_entry.t :=
  icmp_entry.mk "ping" "echo request" "ICMPv4" "8" "0".

Definition icmp_any : icmp_entry.t :=
  icmp_entry.mk "any icmp" "" "ICMPv6" "" "".

Definition icmp_zeros : icmp_entry.t :=
  icmp_entry.mk "padded" "" "ICMPv4" "007" "".

Definition icmp_bad : icmp_entry.t :=
  icmp_entry.mk "bad" "" "ICMPv4" "notanumber" "".

Definition l4_web : l4_port_set_entry.t :=
  l4_port_set_entry.mk "web" "http and https" ["80"; "443"] [] "TCP".

Definition igmp_all : igmp_entry.t := igmp_entry.mk "igmp" "".

Definition ether_ip : ether_type_entry.t :=
  ether_type_entry.mk "ipv4" "" 2048.

Definition ipProt_gre : ip_protocol_entry.t :=
  ip_protocol_entry.mk "gre" "" 47.

Definition alg_ftp : algorithm_entry.t :=
  algorithm_entry.mk "ftp" "" "21" ["1024-65535"] "FTP".

(** One entry in each collection. *)
Definition oneOfEach : RefData :=
  refConfig "svc" "" [icmp_ping] [l4_web] [igmp_all] [ether_ip] [ipProt_gre]
    [alg_ftp].

(** A single ICMP entry, its type written with leading zeros. *)
Definition zerosOnly : RefData :=
  refConfig "svc" "" [icmp_zeros] [] [] [] [] [].

(** A valid ICMP entry followed by a malformed one. *)
Definition goodThenBad (id nsx_id : string) : RefData :=
  refConfig id nsx_id [icmp_ping; icmp_bad] [] [] [] [] [].

(** An L4 record whose display name is its identifier, as the remote side
    returns it when no name was given. *)
Definition l4_unnamed : L4PortSetServiceEntry.t :=
  L4PortSetServiceEntry.mk (Some "uuid-7") (Some "uuid-7") (Some "")
    ["53"] [] "UDP" ServiceEntry_RESOURCE_TYPE_L4PORTSETSERVICEENTRY.

(** An Algorithm record without destination ports. *)
Definition alg_no_ports : ALGTypeServiceEntry.t :=
  ALGTypeServiceEntry.mk (Some "uuid-9") (Some "tftp") (Some "") "TFTP"
    [] [] ServiceEntry_RESOURCE_TYPE_ALGTYPESERVICEENTRY.

(** An ICMP record without type and code. *)
Definition icmp_untyped : ICMPTypeServiceEntry.t :=
  ICMPTypeServiceEntry.mk (Some "uuid-3") (Some "any") (Some "") None None
    "ICMPv4" ServiceEntry_RESOURCE_TYPE_ICMPTYPESERVICEENTRY.

(** The record the reference converter makes of a struct. *)
Definition recordOf (b : BindingType) (x : golang b) : Fields :=
  match refToVapi b x with
  | Converted sv => sv
  | ConvertErrors _ _ => ∅
  end.

(** A client that stores nothing: it rejects every [Patch] and every
    [Update]. *)
Definition rejected : error := externalError "rejected".

Definition rejectingClient : ServicesClient := {|
  Tag := string * string;
  Remote := gmap string (Service.t (string * string));
  remote_Get := λ id r,
    match r !! id with Some obj => inl obj | None => inr notFound end;
  remote_Patch := λ id obj r, (Some rejected, r);
  remote_Update := λ id obj r, (inr rejected, r);
  remote_Delete := λ id r, (Some rejected, r) |}.

(** The helpers of the reference environment, over that client. *)
Definition rejectingHelpers : Helpers (cl := rejectingClient) := {|
  getOrGenerateID := λ presenceChecker,
    d ← getD;
    let id := d_GetString "nsx_id" d in
    if decide (id = "") then
      id ← liftGen newUUID; mret (id, None)
    else
      exists_ ← presenceChecker id;
      if (exists_ : bool) then
        mret ("", Some (errorString "Resource already exists"))
      else mret (id, None);
  getPolicyTagsFromSchema := λ _, [];
  setPolicyTagsInSchema := λ _ d, d;
  isNotFoundError := λ e, bool_decide (e = notFound);
  handleCreateError := λ _ _ err, Errorf_v "Failed to create: " err;
  handleReadError := λ _ _ err,
    if bool_decide (err = notFound) then
      _ ← modifyD (d_SetId ""); mret None
    else mret (Some (Errorf_v "Failed to read: " err));
  handleUpdateError := λ _ _ err, Errorf_v "Failed to update: " err;
  handleDeleteError := λ _ _ err, Errorf_v "Failed to delete: " err |}.

Definition rejectingWorld (d : RefData) : World (cl := rejectingClient) :=
  mkWorld (cl := rejectingClient) d 0%nat ∅ [].

(** A service without entries, and a remote side that holds it under the
    given id. *)
Definition emptyService : Service.t (string * string) :=
  Service.mk None None [] [] None None.

Definition holding (id : string) (d : RefData) : World :=
  mkWorld d 0%nat {[ id := emptyService ]} [].

(** The lists the decode loop makes of some records, when it makes any. *)
Definition decodedLists (recs : list Fields) : EntryLists :=
  match rangeServiceEntries recs nilEntryLists with
  | Returned (inl l) => l
  | _ => nilEntryLists
  end.

(** Two records of different variants. *)
Definition twoRecords : list Fields :=
  [ recordOf L4PortSetServiceEntryBindingType l4_unnamed;
    recordOf ICMPTypeServiceEntryBindingType icmp_untyped ].

(** The records the encode pass makes of [oneOfEach], from a generator
    that has given [n] identifiers. *)
Definition recordsOfEach (n : nat) : list Fields :=
  (resourceNsxtPolicyServiceGetEntriesFromSchema oneOfEach n).1.1.

(** * Properties *)

(** ** [strconv] on examples *)

Example Atoi_8 : strconv.Atoi "8" = inl 8.
Proof. reflexivity. Qed.
Example Atoi_007 : strconv.Atoi "007" = inl 7.
Proof. reflexivity. Qed.
Example Atoi_plus : strconv.Atoi "+12" = inl 12.
Proof. reflexivity. Qed.
Example Atoi_minus : strconv.Atoi "-3" = inl (-3).
Proof. reflexivity. Qed.
Example Atoi_sign_only : strconv.Atoi "-" = inr (strconv.syntaxError "-").
Proof. reflexivity. Qed.
Example Atoi_notanumber :
  strconv.Atoi "notanumber" = inr (NumError "Atoi" "notanumber" ErrSyntax).
Proof. reflexivity. Qed.
Example Atoi_big :
  strconv.Atoi "9223372036854775808"
  = inr (NumError "Atoi" "9223372036854775808" ErrRange).
Proof. reflexivity. Qed.
Example Itoa_0 : strconv.Itoa 0 = "0".
Proof. reflexivity. Qed.
Example Itoa_255 : strconv.Itoa 255 = "255".
Proof. reflexivity. Qed.
Example Itoa_neg : strconv.Itoa (-40) = "-40".
Proof. reflexivity. Qed.

Lemma refConverter_laws : ConverterLaws refConverter.
Proof.
  split.
  - intros [] x; reflexivity.
  - intros [] [] sv [= <-]; simpl.
    all: repeat match goal with o : option _ |- _ => destruct o end.
    all: vm_compute; reflexivity.
  - intros b b' x sv Hx Hlt.
    destruct b, b'; simpl in Hlt; try lia; destruct x; injection Hx as <-.
    all: repeat match goal with o : option _ |- _ => destruct o end.
    all: vm_compute; reflexivity.
Qed.

(** ** Decode: one record *)

Section DecodeFacts.
Context {conv : TypeConverter}.
Implicit Types (entry : StructValue) (l : EntryLists) (b : BindingType).

Lemma firstDecodable_Some entry b :
  firstDecodable entry = Some b ↔
  isConverted (ConvertToGolang entry b) = true ∧ earlierFail entry b.
Proof.
  unfold firstDecodable, earlierFail, trialOrder. cbn [List.find]. split.
  - intros H.
    repeat match type of H with
           | (if ?c then _ else _) = _ => destruct c eqn:?
           end;
      try discriminate; injection H as <-; (split; [done|]);
      intros []; simpl; intros; try lia; done.
  - intros [Hb He].
    destruct b;
      repeat match goal with
             | |- (if isConverted (ConvertToGolang entry ?b') then _ else _)
                  = _ =>
                 first [ rewrite Hb
                       | rewrite (He b') by (simpl; lia) ]
             end; done.
Qed.

Lemma firstDecodable_None entry :
  firstDecodable entry = None ↔
  ∀ b, isConverted (ConvertToGolang entry b) = false.
Proof.
  unfold firstDecodable, trialOrder. cbn [List.find]. split.
  - intros H.
    repeat match type of H with
           | (if ?c then _ else _) = _ => destruct c eqn:?
           end;
      try discriminate. intros []; done.
  - intros H. by rewrite !H.
Qed.

Ltac skip_trial He b' :=
  let H := fresh in
  pose proof (He b' ltac:(simpl; lia)) as H;
  destruct (ConvertToGolang _ b'); [discriminate H | clear H].

Lemma decodeEntry_icmp entry l x dn id :
  ConvertToGolang entry ICMPTypeServiceEntryBindingType = Converted x →
  ICMPTypeServiceEntry.DisplayName x = Some dn →
  ICMPTypeServiceEntry.Id x = Some id →
  decodeEntry entry l =
  Returned (inl (appendEntry ICMPTypeServiceEntryBindingType
    (<["protocol" := VString (ICMPTypeServiceEntry.Protocol x)]>
     (<["icmp_code" := VString
          (from_option strconv.Itoa "" (ICMPTypeServiceEntry.IcmpCode x))]>
      (<["icmp_type" := VString
           (from_option strconv.Itoa "" (ICMPTypeServiceEntry.IcmpType x))]>
       (<["description" := VStringPtr (ICMPTypeServiceEntry.Description x)]>
        (<["display_name" :=
             VString (filterServiceEntryDisplayName dn id)]> ∅))))) l)).
Proof.
  intros Hx Hdn Hid. unfold decodeEntry. rewrite Hx, Hdn, Hid. simpl.
  by destruct (ICMPTypeServiceEntry.IcmpType x),
              (ICMPTypeServiceEntry.IcmpCode x).
Qed.

Lemma decodeEntry_l4 entry l x dn id :
  decodesAs entry L4PortSetServiceEntryBindingType x →
  L4PortSetServiceEntry.DisplayName x = Some dn →
  L4PortSetServiceEntry.Id x = Some id →
  decodeEntry entry l =
  Returned (inl (appendEntry L4PortSetServiceEntryBindingType
    (<["protocol" := VString (L4PortSetServiceEntry.L4Protocol x)]>
     (<["source_ports" :=
          VStringList (L4PortSetServiceEntry.SourcePorts x)]>
      (<["destination_ports" :=
           VStringList (L4PortSetServiceEntry.DestinationPorts x)]>
       (<["description" :=
            VStringPtr (L4PortSetServiceEntry.Description x)]>
        (<["display_name" :=
             VString (filterServiceEntryDisplayName dn id)]> ∅))))) l)).
Proof.
  intros [Hx He] Hdn Hid. unfold decodeEntry.
  skip_trial He ICMPTypeServiceEntryBindingType.
  by rewrite Hx, Hdn, Hid.
Qed.

Lemma decodeEntry_ether entry l x dn id :
  decodesAs entry EtherTypeServiceEntryBindingType x →
  EtherTypeServiceEntry.DisplayName x = Some dn →
  EtherTypeServiceEntry.Id x = Some id →
  decodeEntry entry l =
  Returned (inl (appendEntry EtherTypeServiceEntryBindingType
    (<["ether_type" := VInt64 (EtherTypeServiceEntry.EtherType x)]>
     (<["description" := VStringPtr (EtherTypeServiceEntry.Description x)]>
      (<["display_name" :=
           VString (filterServiceEntryDisplayName dn id)]> ∅))) l)).
Proof.
  intros [Hx He] Hdn Hid. unfold decodeEntry.
  skip_trial He ICMPTypeServiceEntryBindingType.
  skip_trial He L4PortSetServiceEntryBindingType.
  by rewrite Hx, Hdn, Hid.
Qed.

Lemma decodeEntry_ipProt entry l x dn id :
  decodesAs entry IPProtocolServiceEntryBindingType x →
  IPProtocolServiceEntry.DisplayName x = Some dn →
  IPProtocolServiceEntry.Id x = Some id →
  decodeEntry entry l =
  Returned (inl (appendEntry IPProtocolServiceEntryBindingType
    (<["protocol" := VInt64 (IPProtocolServiceEntry.ProtocolNumber x)]>
     (<["description" :=
          VStringPtr (IPProtocolServiceEntry.Description x)]>
      (<["display_name" :=
           VString (filterServiceEntryDisplayName dn id)]> ∅))) l)).
Proof.
  intros [Hx He] Hdn Hid. unfold decodeEntry.
  skip_trial He ICMPTypeServiceEntryBindingType.
  skip_trial He L4PortSetServiceEntryBindingType.
  skip_trial He EtherTypeServiceEntryBindingType.
  by rewrite Hx, Hdn, Hid.
Qed.

Lemma decodeEntry_alg entry l x dn id port ports :
  decodesAs entry ALGTypeServiceEntryBindingType x →
  ALGTypeServiceEntry.DisplayName x = Some dn →
  ALGTypeServiceEntry.Id x = Some id →
  ALGTypeServiceEntry.DestinationPorts x = port :: ports →
  decodeEntry entry l =
  Returned (inl (appendEntry ALGTypeServiceEntryBindingType
    (<["source_ports" := VStringList (ALGTypeServiceEntry.SourcePorts x)]>
     (<["destination_port" := VString port]>
      (<["algorithm" := VString (ALGTypeServiceEntry.Alg x)]>
       (<["description" := VStringPtr (ALGTypeServiceEntry.Description x)]>
        (<["display_name" :=
             VString (filterServiceEntryDisplayName dn id)]> ∅))))) l)).
Proof.
  intros [Hx He] Hdn Hid Hp. unfold decodeEntry.
  skip_trial He ICMPTypeServiceEntryBindingType.
  skip_trial He L4PortSetServiceEntryBindingType.
  skip_trial He EtherTypeServiceEntryBindingType.
  skip_trial He IPProtocolServiceEntryBindingType.
  by rewrite Hx, Hdn, Hid, Hp.
Qed.

Lemma decodeEntry_igmp entry l x dn id :
  decodesAs entry IGMPTypeServiceEntryBindingType x →
  IGMPTypeServiceEntry.DisplayName x = Some dn →
  IGMPTypeServiceEntry.Id x = Some id →
  decodeEntry entry l =
  Returned (inl (appendEntry IGMPTypeServiceEntryBindingType
    (<["description" := VStringPtr (IGMPTypeServiceEntry.Description x)]>
     (<["display_name" :=
          VString (filterServiceEntryDisplayName dn id)]> ∅)) l)).
Proof.
  intros [Hx He] Hdn Hid. unfold decodeEntry.
  skip_trial He ICMPTypeServiceEntryBindingType.
  skip_trial He L4PortSetServiceEntryBindingType.
  skip_trial He EtherTypeServiceEntryBindingType.
  skip_trial He IPProtocolServiceEntryBindingType.
  skip_trial He ALGTypeServiceEntryBindingType.
  by rewrite Hx, Hdn, Hid.
Qed.

End DecodeFacts.

(** ** Decode: classification, display names, panics *)

Section DecodeLoop.
Context {conv : TypeConverter}.
Implicit Types (entry : StructValue) (l : EntryLists) (b : BindingType).

Lemma entriesOf_appendEntry b elem l :
  entriesOf b (appendEntry b elem l) = entriesOf b l ++ [elem].
Proof. by destruct l, b. Qed.

Lemma entriesOf_appendEntry_ne b b' elem l :
  b' ≠ b → entriesOf b' (appendEntry b elem l) = entriesOf b' l.
Proof. by destruct l, b, b'. Qed.

Lemma decodeEntry_readable entry l b (x : golang b) dn id :
  decodesAs entry b x →
  entryDisplayName b x = Some dn → entryId b x = Some id →
  portsPresent b x →
  ∃ elem,
    decodeEntry entry l = Returned (inl (appendEntry b elem l)) ∧
    elem !! "display_name"
    = Some (VString (filterServiceEntryDisplayName dn id)).
Proof.
  intros Hx Hdn Hid Hp. destruct b; simpl in *.
  - eexists; split; [by eapply decodeEntry_icmp; [apply Hx|..]|].
    by simplify_map_eq.
  - eexists; split; [by eapply decodeEntry_l4|]. by simplify_map_eq.
  - eexists; split; [by eapply decodeEntry_igmp|]. by simplify_map_eq.
  - eexists; split; [by eapply decodeEntry_ether|]. by simplify_map_eq.
  - eexists; split; [by eapply decodeEntry_ipProt|]. by simplify_map_eq.
  - destruct (ALGTypeServiceEntry.DestinationPorts x) as [|port ports] eqn:E;
      [done|].
    eexists; split; [by eapply decodeEntry_alg|]. by simplify_map_eq.
Qed.

Lemma decodeEntry_unreadable entry l b (x : golang b) :
  decodesAs entry b x → ¬ readable b x →
  ∃ p, decodeEntry entry l = Panicked p.
Proof.
  intros [Hx He] Hn. unfold decodeEntry.
  destruct b; simpl in *;
    repeat match goal with
           | |- context [ConvertToGolang entry ?b'] =>
               first
                 [ rewrite Hx
                 | let H := fresh in
                   pose proof (He b' ltac:(simpl; lia)) as H;
                   destruct (ConvertToGolang entry b');
                   [discriminate H | clear H] ]
           end; simpl.
  all: unfold readable in Hn; simpl in Hn.
  all: repeat match goal with
              | |- context [deref ?o] => destruct o; simpl
              | |- context [index0 ?o] => destruct o; simpl
              end; eauto.
  all: exfalso; apply Hn; eauto.
Qed.

Lemma decodeEntry_unknown entry l e es :
  firstDecodable entry = None →
  ConvertToGolang entry IGMPTypeServiceEntryBindingType
  = ConvertErrors e es →
  decodeEntry entry l = Returned (inr e).
Proof.
  intros Hn Hi. rewrite firstDecodable_None in Hn. unfold decodeEntry.
  repeat match goal with
         | |- context [ConvertToGolang entry ?b'] =>
             first
               [ rewrite Hi
               | let H := fresh in
                 pose proof (Hn b') as H;
                 destruct (ConvertToGolang entry b');
                 [discriminate H | clear H] ]
         end.
  done.
Qed.

Lemma rangeServiceEntries_app pre post l :
  rangeServiceEntries (pre ++ post) l =
  match rangeServiceEntries pre l with
  | Returned (inl l') => rangeServiceEntries post l'
  | Returned (inr err) => Returned (inr err)
  | Panicked p => Panicked p
  end.
Proof.
  revert l. induction pre as [|entry pre IH]; intros l; simpl; [done|].
  destruct (decodeEntry entry l) as [[l'|err]|p]; simpl; auto.
Qed.

Lemma rangeServiceEntries_stop pre entry post l l' r :
  rangeServiceEntries pre l = Returned (inl l') →
  decodeEntry entry l' = r →
  (∀ l'', r ≠ Returned (inl l'')) →
  rangeServiceEntries (pre ++ entry :: post) l = r.
Proof.
  intros Hpre Hr Hne. rewrite rangeServiceEntries_app, Hpre. simpl.
  rewrite Hr. destruct r as [[l''|err]|p]; simpl; [|done..].
  by destruct (Hne l'').
Qed.

End DecodeLoop.

Section ReadFacts.
Context {conv : TypeConverter} {acc : SchemaAccessor} {gen : UUIDGen}
        {cl : ServicesClient} {hp : Helpers}.

Lemma setServiceAttributes_returns id obj w :
  (setServiceAttributes id obj w).1 = Returned ().
Proof.
  unfold setServiceAttributes, dSet, modifyD, mbind, M_bind, mret, M_ret.
  simpl. repeat (destruct (d_Set _ _ _); simpl). done.
Qed.

Lemma Read_entries w obj :
  d_Id (rd w) ≠ "" →
  remote_Get (d_Id (rd w)) (remote w) = inl obj →
  resourceNsxtPolicyServiceRead w =
  match rangeServiceEntries (Service.ServiceEntries obj) nilEntryLists with
  | Panicked p => (Panicked p, attributesSet w obj)
  | Returned (inr err) => (Returned (Some err), attributesSet w obj)
  | Returned (inl l) => setEntryLists l (attributesSet w obj)
  end.
Proof.
  intros Hid Hget. unfold resourceNsxtPolicyServiceRead, attributesSet.
  unfold mbind at 1, M_bind at 1, getD at 1.
  destruct (decide (d_Id (rd w) = "")) as [|_]; [done|].
  unfold mbind at 1, M_bind at 1, client_Get at 1. rewrite Hget.
  unfold mbind at 1, M_bind at 1.
  pose proof (setServiceAttributes_returns (d_Id (rd w)) obj
    (mkWorld (rd w) (uuids w) (remote w)
       (calls w ++ [CallGet (d_Id (rd w))]))) as Hs.
  destruct (setServiceAttributes _ _ _) as [o w1]. simpl in Hs. subst o.
  unfold mbind, M_bind, liftOutcome. simpl.
  by destruct (rangeServiceEntries _ _) as [[l|err]|p].
Qed.

End ReadFacts.

Section DecodeTheorems.
Context {conv : TypeConverter} {acc : SchemaAccessor} {gen : UUIDGen}
        {cl : ServicesClient} {hp : Helpers}.
Implicit Types (entry : StructValue) (l : EntryLists) (b : BindingType).

(** C3 (display-name suppression). A record that decodes as any of the
    six variants, with display name [dn] and identifier [id], is appended
    to its variant's list with ["display_name"] set to the empty string
    when [dn] and [id] are the same string, and to [dn] itself when they
    differ. *)
Theorem display_name_suppression entry l b (x : golang b) dn id :
  decodesAs entry b x →
  entryDisplayName b x = Some dn →
  entryId b x = Some id →
  portsPresent b x →
  ∃ elem l',
    decodeEntry entry l = Returned (inl l') ∧
    entriesOf b l' = entriesOf b l ++ [elem] ∧
    (dn = id → elem !! "display_name" = Some (VString "")) ∧
    (dn ≠ id → elem !! "display_name" = Some (VString dn)).
Proof.
  intros Hx Hdn Hid Hp.
  destruct (decodeEntry_readable entry l b x dn id Hx Hdn Hid Hp)
    as (elem & Hd & Hname).
  exists elem, (appendEntry b elem l).
  split; [done|]. split; [apply entriesOf_appendEntry|].
  unfold filterServiceEntryDisplayName in Hname.
  split; intros ?; by case_decide.
Qed.

(** C5 (trial order). The variant of a record is the first binding type
    of the trial order ICMP, L4 Port-Set, Ether-Type, IP-Protocol,
    Algorithm, IGMP under which it decodes: the loop body appends one
    element to that variant's list and leaves the five other lists as
    they were. (It does so whenever the decoded struct has the display
    name, the identifier and the port the body reads; without them the
    body panics.) *)
Theorem trial_order_classification entry l b :
  firstDecodable entry = Some b →
  ∃ x : golang b,
    ConvertToGolang entry b = Converted x ∧
    (readable b x →
     ∃ elem l',
       decodeEntry entry l = Returned (inl l') ∧
       entriesOf b l' = entriesOf b l ++ [elem] ∧
       ∀ b', b' ≠ b → entriesOf b' l' = entriesOf b' l) ∧
    (¬ readable b x → ∃ p, decodeEntry entry l = Panicked p).
Proof.
  intros Hf. apply firstDecodable_Some in Hf as [Hb He].
  destruct (ConvertToGolang entry b) as [x|] eqn:Hx; [|done].
  exists x. split; [done|]. split.
  - intros ([dn Hdn] & [id Hid] & Hp).
    destruct (decodeEntry_readable entry l b x dn id (conj Hx He) Hdn Hid Hp)
      as (elem & Hd & _).
    exists elem, (appendEntry b elem l). split; [done|].
    split; [apply entriesOf_appendEntry|].
    intros b' Hne. by apply entriesOf_appendEntry_ne.
  - intros Hn. by eapply decodeEntry_unreadable.
Qed.

(** C6 (unknown variant). A record that decodes under none of the six
    binding types makes the loop body return the first error of the IGMP
    trial; the loop stops at that record whatever follows it, and the
    read operation returns that error without setting any of the six
    entry collections. *)
Theorem unknown_variant_rejected entry e es :
  firstDecodable entry = None →
  ConvertToGolang entry IGMPTypeServiceEntryBindingType
  = ConvertErrors e es →
  (∀ l, decodeEntry entry l = Returned (inr e)) ∧
  (∀ pre post l l',
     rangeServiceEntries pre l = Returned (inl l') →
     rangeServiceEntries (pre ++ entry :: post) l = Returned (inr e)) ∧
  (∀ w obj pre post l',
     d_Id (rd w) ≠ "" →
     remote_Get (d_Id (rd w)) (remote w) = inl obj →
     Service.ServiceEntries obj = pre ++ entry :: post →
     rangeServiceEntries pre nilEntryLists = Returned (inl l') →
     resourceNsxtPolicyServiceRead w
     = (Returned (Some e), attributesSet w obj)).
Proof.
  intros Hn Hi.
  assert (Hl : ∀ pre post l l',
    rangeServiceEntries pre l = Returned (inl l') →
    rangeServiceEntries (pre ++ entry :: post) l = Returned (inr e)).
  { intros pre post l l' Hpre.
    eapply rangeServiceEntries_stop; [done| |done].
    by apply decodeEntry_unknown with es. }
  split; [intros l; by apply decodeEntry_unknown with es|].
  split; [done|].
  intros w obj pre post l' Hid Hget Hse Hpre.
  rewrite (Read_entries w obj Hid Hget), Hse.
  by rewrite (Hl pre post _ _ Hpre).
Qed.

(** C9 (Algorithm records are read without guards). For a record
    classified as an Algorithm entry the loop body never returns an error
    value: it panics on a nil dereference exactly when the display name
    or the identifier is nil, panics on an index out of range exactly
    when both are set and the destination ports are empty, and appends
    an element otherwise. A panic of the body is a panic of the loop and
    of the read operation. *)
Theorem algorithm_read_precondition entry (x : ALGTypeServiceEntry.t) :
  decodesAs entry ALGTypeServiceEntryBindingType x →
  (∀ l,
     (decodeEntry entry l = Panicked NilDereference ↔
      ALGTypeServiceEntry.DisplayName x = None ∨
      ALGTypeServiceEntry.Id x = None) ∧
     (decodeEntry entry l = Panicked IndexOutOfRange ↔
      is_Some (ALGTypeServiceEntry.DisplayName x) ∧
      is_Some (ALGTypeServiceEntry.Id x) ∧
      ALGTypeServiceEntry.DestinationPorts x = []) ∧
     ((∃ elem,
         decodeEntry entry l
         = Returned (inl (appendEntry ALGTypeServiceEntryBindingType
                            elem l))) ↔
      readable ALGTypeServiceEntryBindingType x) ∧
     (∀ err, decodeEntry entry l ≠ Returned (inr err))) ∧
  (∀ pre post l l' p,
     rangeServiceEntries pre l = Returned (inl l') →
     decodeEntry entry l' = Panicked p →
     rangeServiceEntries (pre ++ entry :: post) l = Panicked p) ∧
  (∀ w obj pre post l' p,
     d_Id (rd w) ≠ "" →
     remote_Get (d_Id (rd w)) (remote w) = inl obj →
     Service.ServiceEntries obj = pre ++ entry :: post →
     rangeServiceEntries pre nilEntryLists = Returned (inl l') →
     decodeEntry entry l' = Panicked p →
     (resourceNsxtPolicyServiceRead w).1 = Panicked p).
Proof.
  intros Hx.
  assert (Hl : ∀ pre post l l' p,
    rangeServiceEntries pre l = Returned (inl l') →
    decodeEntry entry l' = Panicked p →
    rangeServiceEntries (pre ++ entry :: post) l = Panicked p).
  { intros pre post l l' p Hpre Hp.
    by eapply rangeServiceEntries_stop. }
  split; [|split; [done|]].
  - intros l.
    assert (Hd : decodeEntry entry l =
      (displayName ← deref (ALGTypeServiceEntry.DisplayName x);
       id ← deref (ALGTypeServiceEntry.Id x);
       destinationPort ←
         index0 (ALGTypeServiceEntry.DestinationPorts x);
       mret (inl (appendEntry ALGTypeServiceEntryBindingType
         (<["source_ports" :=
              VStringList (ALGTypeServiceEntry.SourcePorts x)]>
          (<["destination_port" := VString destinationPort]>
           (<["algorithm" := VString (ALGTypeServiceEntry.Alg x)]>
            (<["description" :=
                 VStringPtr (ALGTypeServiceEntry.Description x)]>
             (<["display_name" := VString
                  (filterServiceEntryDisplayName displayName id)]>
                ∅))))) l)))).
    { destruct Hx as [Hx He]. unfold decodeEntry.
      repeat match goal with
             | |- context [ConvertToGolang entry ?b'] =>
                 first
                   [ rewrite Hx
                   | let H := fresh in
                     pose proof (He b' ltac:(simpl; lia)) as H;
                     destruct (ConvertToGolang entry b');
                     [discriminate H | clear H] ]
             end.
      done. }
    rewrite Hd. unfold readable. simpl.
    destruct (ALGTypeServiceEntry.DisplayName x),
             (ALGTypeServiceEntry.Id x),
             (ALGTypeServiceEntry.DestinationPorts x); simpl.
    all: unfold is_Some, mret, outcome_ret; clear Hd.
    all: repeat match goal with
                | |- _ ∧ _ => split
                | |- _ ↔ _ => split
                | |- _ → _ => intro
                | |- ∀ _, _ => intro
                | H : _ ∨ _ |- _ => destruct H
                | H : _ ∧ _ |- _ => destruct H
                | H : ∃ _, _ |- _ => destruct H
                end.
    all: try congruence; eauto 6.
  - intros w obj pre post l' p Hid Hget Hse Hpre Hp.
    rewrite (Read_entries w obj Hid Hget), Hse.
    by rewrite (Hl pre post _ _ p Hpre Hp).
Qed.

End DecodeTheorems.

(** ** Encode: the loops *)

Section EncodeFacts.
Context {conv : TypeConverter} {acc : SchemaAccessor} {gen : UUIDGen}.

Lemma rangeEntries_cons {A} body (e : A) rest serviceEntries u :
  rangeEntries body (e :: rest) serviceEntries u =
  match body e u with
  | (inl entryStruct, u1) =>
      rangeEntries body rest (serviceEntries ++ [entryStruct]) u1
  | (inr err, u1) => ((serviceEntries, Some err), u1)
  end.
Proof.
  simpl. unfold mbind, State_bind. by destruct (body e u) as [[?|?] ?].
Qed.

Lemma rangeEntries_shape {A} body (entries : list A) serviceEntries u :
  ∃ recs err u',
    rangeEntries body entries serviceEntries u
    = ((serviceEntries ++ recs, err), u') ∧
    segment body entries recs ∧ loopEnd body entries recs err.
Proof.
  revert serviceEntries u.
  induction entries as [|e rest IH]; intros serviceEntries u.
  - exists [], None, u. rewrite app_nil_r. split; [done|].
    split; [constructor|done].
  - rewrite rangeEntries_cons. destruct (body e u) as [[r|er] u1] eqn:Hb.
    + destruct (IH (serviceEntries ++ [r]) u1)
        as (recs & err & u' & Hr & Hseg & Hend).
      exists (r :: recs), err, u'. rewrite Hr, <- app_assoc.
      split; [done|]. split.
      * unfold segment. simpl. constructor; [by exists u, u1|done].
      * destruct err; simpl in *; [done|]. by f_equal.
    + exists [], (Some er), u1. rewrite app_nil_r. split; [done|].
      split; [constructor|]. simpl. exists e, u. by rewrite Hb.
Qed.

Lemma thenRange_shape {A} body (entries : list A) prev err0 u :
  ∃ recs err u',
    thenRange body entries (prev, err0) u = ((prev ++ recs, err), u') ∧
    segment body entries recs ∧
    match err0 with
    | None => loopEnd body entries recs err
    | Some _ => err = err0 ∧ recs = []
    end.
Proof.
  destruct err0 as [e0|]; simpl.
  - exists [], (Some e0), u. rewrite app_nil_r.
    split; [done|]. split; [constructor|done].
  - destruct (rangeEntries_shape body entries prev u)
      as (recs & err & u' & ? & ? & ?).
    by exists recs, err, u'.
Qed.

(** An entry on which the body fails in every generator state ends the
    loop, at that entry or before it. *)
Lemma loop_stops_at {A} body (entries : list A) recs err i e :
  segment body entries recs → loopEnd body entries recs err →
  entries !! i = Some e →
  (∀ u, ∃ er, (body e u).1 = inr er) →
  is_Some err ∧ (length recs ≤ i)%nat.
Proof.
  intros Hseg Hend Hi Hfail.
  assert (Hle : (length recs ≤ i)%nat).
  { destruct (decide (length recs ≤ i)%nat) as [|Hgt]; [done|exfalso].
    assert (Hlt : (i < length recs)%nat) by lia.
    destruct (lookup_lt_is_Some_2 recs i Hlt) as [r Hr].
    assert (Ht : take (length recs) entries !! i = Some e)
      by (rewrite lookup_take_lt; done).
    destruct (Forall2_lookup_lr _ _ _ _ _ _ Hseg Ht Hr) as (u & u' & Hb).
    destruct (Hfail u) as [er Her]. rewrite Hb in Her. done. }
  split; [|done]. destruct err; [done|]. simpl in Hend.
  apply lookup_lt_Some in Hi. lia.
Qed.

(** The whole function: six segments in the order of the six loops. *)
Lemma encode_shape d u :
  ∃ r1 r2 r3 r4 r5 r6 err u',
    resourceNsxtPolicyServiceGetEntriesFromSchema d u
    = ((r1 ++ r2 ++ r3 ++ r4 ++ r5 ++ r6, err), u') ∧
    segment icmpEntryBody (d_icmp_entry d) r1 ∧
    segment l4EntryBody (d_l4_port_set_entry d) r2 ∧
    segment igmpEntryBody (d_igmp_entry d) r3 ∧
    segment etherEntryBody (d_ether_type_entry d) r4 ∧
    segment ipProtEntryBody (d_ip_protocol_entry d) r5 ∧
    segment algEntryBody (d_algorithm_entry d) r6 ∧
    match err with
    | None =>
        length r1 = length (d_icmp_entry d) ∧
        length r2 = length (d_l4_port_set_entry d) ∧
        length r3 = length (d_igmp_entry d) ∧
        length r4 = length (d_ether_type_entry d) ∧
        length r5 = length (d_ip_protocol_entry d) ∧
        length r6 = length (d_algorithm_entry d)
    | Some _ =>
        loopEnd icmpEntryBody (d_icmp_entry d) r1 err ∨
        loopEnd l4EntryBody (d_l4_port_set_entry d) r2 err ∨
        loopEnd igmpEntryBody (d_igmp_entry d) r3 err ∨
        loopEnd etherEntryBody (d_ether_type_entry d) r4 err ∨
        loopEnd ipProtEntryBody (d_ip_protocol_entry d) r5 err ∨
        loopEnd algEntryBody (d_algorithm_entry d) r6 err
    end.
Proof.
  unfold resourceNsxtPolicyServiceGetEntriesFromSchema.
  unfold mbind, State_bind.
  destruct (rangeEntries_shape icmpEntryBody (d_icmp_entry d) [] u)
    as (r1 & e1 & u1 & -> & S1 & E1). cbv beta iota. rewrite app_nil_l.
  destruct (thenRange_shape l4EntryBody (d_l4_port_set_entry d) r1 e1 u1)
    as (r2 & e2 & u2 & -> & S2 & E2). cbv beta iota.
  destruct (thenRange_shape igmpEntryBody (d_igmp_entry d) (r1 ++ r2) e2 u2)
    as (r3 & e3 & u3 & -> & S3 & E3). cbv beta iota.
  destruct (thenRange_shape etherEntryBody (d_ether_type_entry d)
              ((r1 ++ r2) ++ r3) e3 u3)
    as (r4 & e4 & u4 & -> & S4 & E4). cbv beta iota.
  destruct (thenRange_shape ipProtEntryBody (d_ip_protocol_entry d)
              (((r1 ++ r2) ++ r3) ++ r4) e4 u4)
    as (r5 & e5 & u5 & -> & S5 & E5). cbv beta iota.
  destruct (thenRange_shape algEntryBody (d_algorithm_entry d)
              ((((r1 ++ r2) ++ r3) ++ r4) ++ r5) e5 u5)
    as (r6 & e6 & u6 & -> & S6 & E6).
  exists r1, r2, r3, r4, r5, r6, e6, u6.
  split; [by rewrite <- !app_assoc|].
  do 6 (split; [done|]).
  destruct e1 as [er1|].
  { destruct E2 as [-> ->], E3 as [-> ->], E4 as [-> ->], E5 as [-> ->],
      E6 as [-> ->]. auto. }
  destruct e2 as [er2|].
  { destruct E3 as [-> ->], E4 as [-> ->], E5 as [-> ->], E6 as [-> ->].
    auto. }
  destruct e3 as [er3|].
  { destruct E4 as [-> ->], E5 as [-> ->], E6 as [-> ->]. auto. }
  destruct e4 as [er4|].
  { destruct E5 as [-> ->], E6 as [-> ->]. auto 6. }
  destruct e5 as [er5|].
  { destruct E6 as [-> ->]. auto 7. }
  destruct e6 as [er6|]; [auto 8|]. by repeat split.
Qed.

(** Once the ICMP loop has returned an error, so has the function. *)
Lemma encode_icmp_error d u recs er u' :
  rangeEntries icmpEntryBody (d_icmp_entry d) [] u = ((recs, Some er), u') →
  resourceNsxtPolicyServiceGetEntriesFromSchema d u = ((recs, Some er), u').
Proof.
  intros H. unfold resourceNsxtPolicyServiceGetEntriesFromSchema.
  unfold mbind, State_bind. by rewrite H.
Qed.

End EncodeFacts.

(** ** Encode: the loop bodies *)

Section BodyFacts.
Context {conv : TypeConverter} {acc : SchemaAccessor} {gen : UUIDGen}.

Lemma optionalAtoi_inr v err :
  optionalAtoi v = inr err ↔ v ≠ "" ∧ strconv.Atoi v = inr err.
Proof.
  unfold optionalAtoi. case_decide as Hv.
  - destruct (strconv.Atoi v) as [n|er].
    + split; [done|]. by intros [_ ?].
    + split; [by intros [= ->]|]. by intros [_ [= ->]].
  - split; [done|]. by intros [? _].
Qed.

Lemma optionalAtoi_parses v :
  parsesField v → ∃ p, optionalAtoi v = inl p.
Proof.
  unfold optionalAtoi. intros [->|[n Hn]]; [by exists None|].
  case_decide; [|by exists None]. rewrite Hn. by exists (Some n).
Qed.

Lemma optionalAtoi_empty : optionalAtoi "" = inl None.
Proof. done. Qed.

Lemma icmpEntryBody_eq e u :
  icmpEntryBody e u =
  match optionalAtoi (icmp_entry.icmp_type e) with
  | inr err => (inr err, u)
  | inl typePtr =>
      match optionalAtoi (icmp_entry.icmp_code e) with
      | inr err => (inr err, u)
      | inl codePtr =>
          (toVapi ICMPTypeServiceEntryBindingType
             (icmpStruct e typePtr codePtr (newUUID u).1), (newUUID u).2)
      end
  end.
Proof.
  unfold icmpEntryBody.
  destruct (optionalAtoi (icmp_entry.icmp_type e)); [|done].
  destruct (optionalAtoi (icmp_entry.icmp_code e)); [|done].
  unfold mbind, State_bind. by destruct (newUUID u).
Qed.

Lemma l4EntryBody_eq e u :
  l4EntryBody e u =
  (toVapi L4PortSetServiceEntryBindingType (l4Struct e (newUUID u).1),
   (newUUID u).2).
Proof. unfold l4EntryBody, mbind, State_bind. by destruct (newUUID u). Qed.

Lemma igmpEntryBody_eq e u :
  igmpEntryBody e u =
  (toVapi IGMPTypeServiceEntryBindingType (igmpStruct e (newUUID u).1),
   (newUUID u).2).
Proof. unfold igmpEntryBody, mbind, State_bind. by destruct (newUUID u). Qed.

Lemma etherEntryBody_eq e u :
  etherEntryBody e u =
  (toVapi EtherTypeServiceEntryBindingType (etherStruct e (newUUID u).1),
   (newUUID u).2).
Proof. unfold etherEntryBody, mbind, State_bind. by destruct (newUUID u). Qed.

Lemma ipProtEntryBody_eq e u :
  ipProtEntryBody e u =
  (toVapi IPProtocolServiceEntryBindingType (ipProtStruct e (newUUID u).1),
   (newUUID u).2).
Proof.
  unfold ipProtEntryBody, mbind, State_bind. by destruct (newUUID u).
Qed.

Lemma algEntryBody_eq e u :
  algEntryBody e u =
  (toVapi ALGTypeServiceEntryBindingType (algStruct e (newUUID u).1),
   (newUUID u).2).
Proof. unfold algEntryBody, mbind, State_bind. by destruct (newUUID u). Qed.

Lemma malformed_fails e u :
  malformed e → ∃ er, (icmpEntryBody e u).1 = inr er.
Proof.
  intros Hm. rewrite icmpEntryBody_eq.
  destruct (optionalAtoi (icmp_entry.icmp_type e)) as [typePtr|er] eqn:Ht;
    [|by exists er].
  destruct (optionalAtoi (icmp_entry.icmp_code e)) as [codePtr|er] eqn:Hc;
    [|by exists er].
  exfalso. destruct Hm as [[Hv [er He]]|[Hv [er He]]].
  - assert (optionalAtoi (icmp_entry.icmp_type e) = inr er)
      by (by apply optionalAtoi_inr). congruence.
  - assert (optionalAtoi (icmp_entry.icmp_code e) = inr er)
      by (by apply optionalAtoi_inr). congruence.
Qed.

(** A malformed ICMP entry stops the ICMP loop, at that entry or before
    it. *)
Lemma icmp_loop_stops d u i e :
  d_icmp_entry d !! i = Some e →
  malformed e →
  ∃ recs er u',
    rangeEntries icmpEntryBody (d_icmp_entry d) [] u
    = ((recs, Some er), u') ∧
    segment icmpEntryBody (d_icmp_entry d) recs ∧
    (length recs ≤ i)%nat ∧
    loopEnd icmpEntryBody (d_icmp_entry d) recs (Some er).
Proof.
  intros Hi Hm.
  destruct (rangeEntries_shape icmpEntryBody (d_icmp_entry d) [] u)
    as (recs & err & u' & Hr & Hseg & Hend).
  destruct (loop_stops_at _ _ _ _ _ _ Hseg Hend Hi
              (λ u0, malformed_fails e u0 Hm)) as [[er ->] Hle].
  exists recs, er, u'. by rewrite app_nil_l in Hr.
Qed.

End BodyFacts.

Section EncodeTheorems.
Context {conv : TypeConverter} {acc : SchemaAccessor} {gen : UUIDGen}.

(** C2 (empty optional fields). An ICMP entry whose [icmp_type] and
    [icmp_code] strings are empty is converted from a struct whose
    [IcmpType] and [IcmpCode] are nil; and a record that decodes as an
    ICMP struct with a nil [IcmpType] (a nil [IcmpCode]) is written back
    with ["icmp_type"] (["icmp_code"]) set to the empty string, which is
    not ["0"]. *)
Theorem empty_optional_invariant
    (entryData : icmp_entry.t) u (entry : StructValue) l
    (x : ICMPTypeServiceEntry.t) dn id :
  icmp_entry.icmp_type entryData = "" →
  icmp_entry.icmp_code entryData = "" →
  ConvertToGolang entry ICMPTypeServiceEntryBindingType = Converted x →
  ICMPTypeServiceEntry.DisplayName x = Some dn →
  ICMPTypeServiceEntry.Id x = Some id →
  (∃ serviceEntry,
     icmpEntryBody entryData u
     = (toVapi ICMPTypeServiceEntryBindingType serviceEntry,
        (newUUID u).2) ∧
     serviceEntry = icmpStruct entryData None None (newUUID u).1 ∧
     ICMPTypeServiceEntry.IcmpType serviceEntry = None ∧
     ICMPTypeServiceEntry.IcmpCode serviceEntry = None) ∧
  (∃ elem,
     decodeEntry entry l
     = Returned (inl (appendEntry ICMPTypeServiceEntryBindingType elem l)) ∧
     (ICMPTypeServiceEntry.IcmpType x = None →
      elem !! "icmp_type" = Some (VString "") ∧
      elem !! "icmp_type" ≠ Some (VString "0")) ∧
     (ICMPTypeServiceEntry.IcmpCode x = None →
      elem !! "icmp_code" = Some (VString "") ∧
      elem !! "icmp_code" ≠ Some (VString "0"))).
Proof.
  intros Ht Hc Hx Hdn Hid. split.
  - eexists. split; [|done].
    by rewrite icmpEntryBody_eq, Ht, Hc, optionalAtoi_empty.
  - eexists. split; [by eapply decodeEntry_icmp|].
    split; intros ->; simpl; by simplify_map_eq.
Qed.

(** C4 (collection order). The records the encode pass returns are six
    segments laid end to end in the order ICMP, L4 Port-Set, IGMP,
    Ether-Type, IP-Protocol, Algorithm, each segment holding the records
    of the first entries of its collection in the collection's order;
    when no error is returned every segment covers its whole collection.
    In particular one entry in each collection gives exactly six records
    in that order. *)
Theorem encode_collection_order d u :
  (∃ r1 r2 r3 r4 r5 r6 err u',
     resourceNsxtPolicyServiceGetEntriesFromSchema d u
     = ((r1 ++ r2 ++ r3 ++ r4 ++ r5 ++ r6, err), u') ∧
     segment icmpEntryBody (d_icmp_entry d) r1 ∧
     segment l4EntryBody (d_l4_port_set_entry d) r2 ∧
     segment igmpEntryBody (d_igmp_entry d) r3 ∧
     segment etherEntryBody (d_ether_type_entry d) r4 ∧
     segment ipProtEntryBody (d_ip_protocol_entry d) r5 ∧
     segment algEntryBody (d_algorithm_entry d) r6 ∧
     (err = None →
      length r1 = length (d_icmp_entry d) ∧
      length r2 = length (d_l4_port_set_entry d) ∧
      length r3 = length (d_igmp_entry d) ∧
      length r4 = length (d_ether_type_entry d) ∧
      length r5 = length (d_ip_protocol_entry d) ∧
      length r6 = length (d_algorithm_entry d))) ∧
  (∀ e1 e2 e3 e4 e5 e6 recs u',
     d_icmp_entry d = [e1] → d_l4_port_set_entry d = [e2] →
     d_igmp_entry d = [e3] → d_ether_type_entry d = [e4] →
     d_ip_protocol_entry d = [e5] → d_algorithm_entry d = [e6] →
     resourceNsxtPolicyServiceGetEntriesFromSchema d u
     = ((recs, None), u') →
     ∃ r1 r2 r3 r4 r5 r6,
       recs = [r1; r2; r3; r4; r5; r6] ∧
       encodedBy icmpEntryBody e1 r1 ∧ encodedBy l4EntryBody e2 r2 ∧
       encodedBy igmpEntryBody e3 r3 ∧ encodedBy etherEntryBody e4 r4 ∧
       encodedBy ipProtEntryBody e5 r5 ∧ encodedBy algEntryBody e6 r6).
Proof.
  destruct (encode_shape d u)
    as (r1 & r2 & r3 & r4 & r5 & r6 & err & u' & He & S1 & S2 & S3 & S4
        & S5 & S6 & Hend).
  split.
  - exists r1, r2, r3, r4, r5, r6, err, u'.
    do 7 (split; [done|]). by intros ->.
  - intros e1 e2 e3 e4 e5 e6 recs u'' H1 H2 H3 H4 H5 H6 Hr.
    rewrite He in Hr. injection Hr as <- -> <-.
    destruct Hend as (L1 & L2 & L3 & L4 & L5 & L6).
    unfold segment in *.
    rewrite L1, H1 in S1. rewrite L2, H2 in S2. rewrite L3, H3 in S3.
    rewrite L4, H4 in S4. rewrite L5, H5 in S5. rewrite L6, H6 in S6.
    simpl in *.
    repeat match goal with
           | H : Forall2 _ [_] _ |- _ =>
               apply Forall2_cons_inv_l in H
                 as (? & ? & ? & ->%Forall2_nil_inv_l & ->)
           end.
    by eauto 15.
Qed.

(** C7 (parse failure), as the code has it. When some ICMP entry has a
    malformed type or code, the encode pass returns a non-nil error, the
    one of the loop body at the entry where the ICMP loop stopped;
    alongside it returns the records of the ICMP entries before that
    entry, which are fewer than the position of any malformed entry
    (none at all when the first entry is malformed) and never the whole
    list. *)
Theorem parse_failure_abort d u i e :
  d_icmp_entry d !! i = Some e →
  malformed e →
  ∃ recs er u',
    resourceNsxtPolicyServiceGetEntriesFromSchema d u
    = ((recs, Some er), u') ∧
    segment icmpEntryBody (d_icmp_entry d) recs ∧
    (length recs ≤ i)%nat ∧
    ∃ e' u0, d_icmp_entry d !! length recs = Some e' ∧
             (icmpEntryBody e' u0).1 = inr er.
Proof.
  intros Hi Hm.
  destruct (icmp_loop_stops d u i e Hi Hm)
    as (recs & er & u' & Hloop & Hseg & Hle & Hend).
  exists recs, er, u'. split; [by apply encode_icmp_error|].
  split; [done|]. split; [done|]. exact Hend.
Qed.

End EncodeTheorems.

(** ** The resource operations *)

Section OperationTheorems.
Context {conv : TypeConverter} {acc : SchemaAccessor} {gen : UUIDGen}
        {cl : ServicesClient} {hp : Helpers}.

Lemma Update_conversion_error w recs er u' :
  d_Id (rd w) ≠ "" →
  resourceNsxtPolicyServiceGetEntriesFromSchema (rd w) (uuids w)
  = ((recs, Some er), u') →
  resourceNsxtPolicyServiceUpdate w
  = (Returned (Some (conversionError er)),
     mkWorld (rd w) u' (remote w) (calls w)).
Proof.
  intros Hid He. unfold resourceNsxtPolicyServiceUpdate.
  unfold mbind at 1, M_bind at 1, getD at 1.
  destruct (decide (d_Id (rd w) = "")) as [|_]; [done|].
  unfold mbind, M_bind, liftGen. by rewrite He.
Qed.

Lemma Create_conversion_error w0 id w recs er u' :
  getOrGenerateID resourceNsxtPolicyServiceExists w0
  = (Returned (id, None), w) →
  resourceNsxtPolicyServiceGetEntriesFromSchema (rd w) (uuids w)
  = ((recs, Some er), u') →
  resourceNsxtPolicyServiceCreate w0
  = (Returned (Some (conversionError er)),
     mkWorld (rd w) u' (remote w) (calls w)).
Proof.
  intros Hg He. unfold resourceNsxtPolicyServiceCreate.
  unfold mbind at 1, M_bind at 1. rewrite Hg.
  unfold mbind at 1, M_bind at 1, getD at 1.
  unfold mbind, M_bind, liftGen. by rewrite He.
Qed.

(** C8 (fail fast), as the code has it. Let the configuration hold an
    ICMP entry with a malformed type or code. An update of a resource
    with a non-empty id returns the conversion error, wrapped in the
    message about Service entries conversion, and makes no call on the
    client at all. A create whose id initialisation has succeeded returns
    the same wrapped error and makes no call after the ones of the id
    initialisation: no Patch is made. In both the resource data and the
    remote side are left as they were at the conversion. *)
Theorem malformed_entry_fails_fast w i e :
  d_icmp_entry (rd w) !! i = Some e →
  malformed e →
  ∃ recs er u',
    resourceNsxtPolicyServiceGetEntriesFromSchema (rd w) (uuids w)
    = ((recs, Some er), u') ∧
    (d_Id (rd w) ≠ "" →
     resourceNsxtPolicyServiceUpdate w
     = (Returned (Some (conversionError er)),
        mkWorld (rd w) u' (remote w) (calls w))) ∧
    (∀ w0 id,
       getOrGenerateID resourceNsxtPolicyServiceExists w0
       = (Returned (id, None), w) →
       resourceNsxtPolicyServiceCreate w0
       = (Returned (Some (conversionError er)),
          mkWorld (rd w) u' (remote w) (calls w))).
Proof.
  intros Hi Hm.
  destruct (icmp_loop_stops (rd w) (uuids w) i e Hi Hm)
    as (recs & er & u' & He%encode_icmp_error & _).
  exists recs, er, u'. split; [done|]. split.
  - intros Hid. by eapply Update_conversion_error.
  - intros w0 id Hg. by eapply Create_conversion_error.
Qed.

(** C10 (delete swallows the remote error). With a non-empty resource
    id the delete operation calls the client once and returns nil,
    whether the client returned nil or an error. *)
Theorem delete_returns_nil w err r' :
  d_Id (rd w) ≠ "" →
  remote_Delete (d_Id (rd w)) (remote w) = (err, r') →
  resourceNsxtPolicyServiceDelete w
  = (Returned None,
     mkWorld (rd w) (uuids w) r'
       (calls w ++ [CallDelete (d_Id (rd w))])).
Proof.
  intros Hid Hd. unfold resourceNsxtPolicyServiceDelete.
  unfold mbind at 1, M_bind at 1, getD at 1.
  destruct (decide (d_Id (rd w) = "")) as [|_]; [done|].
  unfold mbind, M_bind, client_Delete. by rewrite Hd.
Qed.

End OperationTheorems.

(** ** Round trip: encode, then decode *)

Section RoundTrip.
Context {conv : TypeConverter} {acc : SchemaAccessor} {gen : UUIDGen}.
Context {laws : ConverterLaws conv}.

Lemma entriesOf_appendEntries b ms l :
  entriesOf b (appendEntries b ms l) = entriesOf b l ++ ms.
Proof.
  unfold appendEntries. revert l.
  induction ms as [|m ms IH]; intros l; simpl.
  - by rewrite app_nil_r.
  - rewrite IH, entriesOf_appendEntry. by rewrite <- app_assoc.
Qed.

Lemma entriesOf_appendEntries_ne b b' ms l :
  b' ≠ b → entriesOf b' (appendEntries b ms l) = entriesOf b' l.
Proof.
  intros Hne. unfold appendEntries. revert l.
  induction ms as [|m ms IH]; intros l; simpl; [done|].
  by rewrite IH, entriesOf_appendEntry_ne.
Qed.

Lemma toVapi_inl b (x : golang b) r :
  toVapi b x = inl r → ConvertToVapi b x = Converted r.
Proof. unfold toVapi. destruct (ConvertToVapi b x); congruence. Qed.

Lemma toVapi_total b (x : golang b) er : toVapi b x ≠ inr er.
Proof.
  unfold toVapi. pose proof (vapi_total b x) as H.
  by destruct (ConvertToVapi b x).
Qed.

Lemma converted_decodesAs b (x : golang b) r :
  ConvertToVapi b x = Converted r → decodesAs r b x.
Proof.
  intros Hx. split; [by apply golang_vapi|].
  intros b' Hlt. by eapply golang_earlier.
Qed.

Lemma converted_recordId b (x : golang b) r :
  ConvertToVapi b x = Converted r → recordId b r = entryId b x.
Proof. intros Hx. unfold recordId. by rewrite (golang_vapi _ _ _ Hx). Qed.

Lemma icmp_back e r :
  parses e → encodedBy icmpEntryBody e r →
  ∃ m, decodesTo ICMPTypeServiceEntryBindingType r m ∧ icmpBack e r m.
Proof.
  intros [Ht Hc] (u & u' & Hb). rewrite icmpEntryBody_eq in Hb.
  unfold icmpBack, canonical.
  destruct (optionalAtoi_parses _ Ht) as [typePtr Htp].
  destruct (optionalAtoi_parses _ Hc) as [codePtr Hcp].
  rewrite Htp, Hcp in Hb |- *.
  injection Hb as Hr%toVapi_inl _.
  pose proof (converted_decodesAs _ _ _ Hr) as Hd.
  eexists. split.
  - intros l. eapply decodeEntry_icmp; [apply Hd|done..].
  - split.
    { eexists. split; [by rewrite (converted_recordId _ _ _ Hr)|].
      by simplify_map_eq. }
    simpl. destruct typePtr, codePtr; by simplify_map_eq.
Qed.

Lemma l4_back e r :
  encodedBy l4EntryBody e r →
  ∃ m, decodesTo L4PortSetServiceEntryBindingType r m ∧ l4Back e r m.
Proof.
  intros (u & u' & Hb). rewrite l4EntryBody_eq in Hb.
  injection Hb as Hr%toVapi_inl _.
  pose proof (converted_decodesAs _ _ _ Hr) as Hd.
  eexists. split.
  - intros l. by eapply decodeEntry_l4.
  - split.
    { eexists. split; [by rewrite (converted_recordId _ _ _ Hr)|].
      by simplify_map_eq. }
    simpl. by simplify_map_eq.
Qed.

Lemma igmp_back e r :
  encodedBy igmpEntryBody e r →
  ∃ m, decodesTo IGMPTypeServiceEntryBindingType r m ∧ igmpBack e r m.
Proof.
  intros (u & u' & Hb). rewrite igmpEntryBody_eq in Hb.
  injection Hb as Hr%toVapi_inl _.
  pose proof (converted_decodesAs _ _ _ Hr) as Hd.
  eexists. split.
  - intros l. by eapply decodeEntry_igmp.
  - split.
    { eexists. split; [by rewrite (converted_recordId _ _ _ Hr)|].
      by simplify_map_eq. }
    simpl. by simplify_map_eq.
Qed.

Lemma ether_back e r :
  encodedBy etherEntryBody e r →
  ∃ m, decodesTo EtherTypeServiceEntryBindingType r m ∧ etherBack e r m.
Proof.
  intros (u & u' & Hb). rewrite etherEntryBody_eq in Hb.
  injection Hb as Hr%toVapi_inl _.
  pose proof (converted_decodesAs _ _ _ Hr) as Hd.
  eexists. split.
  - intros l. by eapply decodeEntry_ether.
  - split.
    { eexists. split; [by rewrite (converted_recordId _ _ _ Hr)|].
      by simplify_map_eq. }
    simpl. by simplify_map_eq.
Qed.

Lemma ipProt_back e r :
  encodedBy ipProtEntryBody e r →
  ∃ m, decodesTo IPProtocolServiceEntryBindingType r m ∧ ipProtBack e r m.
Proof.
  intros (u & u' & Hb). rewrite ipProtEntryBody_eq in Hb.
  injection Hb as Hr%toVapi_inl _.
  pose proof (converted_decodesAs _ _ _ Hr) as Hd.
  eexists. split.
  - intros l. by eapply decodeEntry_ipProt.
  - split.
    { eexists. split; [by rewrite (converted_recordId _ _ _ Hr)|].
      by simplify_map_eq. }
    simpl. by simplify_map_eq.
Qed.

Lemma alg_back e r :
  encodedBy algEntryBody e r →
  ∃ m, decodesTo ALGTypeServiceEntryBindingType r m ∧ algBack e r m.
Proof.
  intros (u & u' & Hb). rewrite algEntryBody_eq in Hb.
  injection Hb as Hr%toVapi_inl _.
  pose proof (converted_decodesAs _ _ _ Hr) as Hd.
  eexists. split.
  - intros l. by eapply decodeEntry_alg.
  - split.
    { eexists. split; [by rewrite (converted_recordId _ _ _ Hr)|].
      by simplify_map_eq. }
    simpl. by simplify_map_eq.
Qed.

(** A segment whose records decode to the variant [b] is appended, in
    order, to the list of [b]. *)
Lemma decode_segment {A} b (back : A → StructValue → Elem → Prop)
    (entries : list A) recs :
  Forall2 (λ e r, ∃ m, decodesTo b r m ∧ back e r m) entries recs →
  ∃ ms, (∀ l, rangeServiceEntries recs l
              = Returned (inl (appendEntries b ms l))) ∧
        Forall3 back entries recs ms.
Proof.
  induction 1 as [|e r entries recs (m & Hd & Hb) _ (ms & Hms & HF)].
  - exists []. split; [done|constructor].
  - exists (m :: ms). split; [|by constructor].
    intros l. simpl. rewrite Hd. simpl. apply Hms.
Qed.

Lemma full_segment {A} (body : A → State UUIDState (StructValue + error))
    entries recs :
  segment body entries recs → length recs = length entries →
  Forall2 (encodedBy body) entries recs.
Proof.
  unfold segment. intros Hs Hl. by rewrite Hl, firstn_all in Hs.
Qed.

Lemma Forall2_impl_elem {A B} (P Q : A → B → Prop) xs ys :
  Forall2 P xs ys → (∀ x y, x ∈ xs → P x y → Q x y) → Forall2 Q xs ys.
Proof.
  induction 1 as [|x y xs ys HP _ IH]; intros HPQ; constructor.
  - apply HPQ; [left|done].
  - apply IH. intros x' y' Hx. apply HPQ. by right.
Qed.

(** With a total converter and ICMP fields that parse, no loop body
    fails. *)
Lemma encode_no_error d u recs er u' :
  (∀ e, e ∈ d_icmp_entry d → parses e) →
  resourceNsxtPolicyServiceGetEntriesFromSchema d u
  ≠ ((recs, Some er), u').
Proof.
  intros Hp He.
  destruct (encode_shape d u)
    as (r1 & r2 & r3 & r4 & r5 & r6 & err & u1 & Hs & _ & _ & _ & _ & _
        & _ & Hend).
  rewrite Hs in He. injection He as _ -> _.
  destruct Hend as [H|[H|[H|[H|[H|H]]]]];
    destruct H as (e & u0 & Hl & Hb).
  - apply list_elem_of_lookup_2, Hp in Hl as [Ht Hc].
    rewrite icmpEntryBody_eq in Hb.
    destruct (optionalAtoi_parses _ Ht) as [typePtr Htp].
    destruct (optionalAtoi_parses _ Hc) as [codePtr Hcp].
    rewrite Htp, Hcp in Hb. by apply toVapi_total in Hb.
  - rewrite l4EntryBody_eq in Hb. by apply toVapi_total in Hb.
  - rewrite igmpEntryBody_eq in Hb. by apply toVapi_total in Hb.
  - rewrite etherEntryBody_eq in Hb. by apply toVapi_total in Hb.
  - rewrite ipProtEntryBody_eq in Hb. by apply toVapi_total in Hb.
  - rewrite algEntryBody_eq in Hb. by apply toVapi_total in Hb.
Qed.

(** C1 (round trip), as the code has it. Let the converter be a faithful
    codec and let the type and code of every ICMP entry be empty or
    parse. Then the encode pass returns no error, the decode loop run on
    its records returns six lists, one element per entry and in the
    entries' order, and every element carries the values of its entry:
    description, protocol, ports, ether type, protocol number, algorithm
    and destination port as they were given; the display name passed
    through the filter against the identifier of its record; and ICMP
    type and code as the decimal rendering of the integer they parsed to
    (the empty string when empty), which need not be the string that was
    given. *)
Theorem round_trip_canonical d u :
  (∀ e, e ∈ d_icmp_entry d → parses e) →
  ∃ r1 r2 r3 r4 r5 r6 u' l,
    resourceNsxtPolicyServiceGetEntriesFromSchema d u
    = ((r1 ++ r2 ++ r3 ++ r4 ++ r5 ++ r6, None), u') ∧
    rangeServiceEntries (r1 ++ r2 ++ r3 ++ r4 ++ r5 ++ r6) nilEntryLists
    = Returned (inl l) ∧
    Forall3 icmpBack (d_icmp_entry d) r1 (icmpEntriesList l) ∧
    Forall3 l4Back (d_l4_port_set_entry d) r2 (l4EntriesList l) ∧
    Forall3 igmpBack (d_igmp_entry d) r3 (igmpEntriesList l) ∧
    Forall3 etherBack (d_ether_type_entry d) r4 (etherEntriesList l) ∧
    Forall3 ipProtBack (d_ip_protocol_entry d) r5 (ipProtEntriesList l) ∧
    Forall3 algBack (d_algorithm_entry d) r6 (algEntriesList l).
Proof.
  intros Hp.
  destruct (encode_shape d u)
    as (r1 & r2 & r3 & r4 & r5 & r6 & err & u' & He & S1 & S2 & S3 & S4
        & S5 & S6 & Hend).
  destruct err as [er|]; [by destruct (encode_no_error _ _ _ _ _ Hp He)|].
  destruct Hend as (L1 & L2 & L3 & L4 & L5 & L6).
  apply full_segment in S1, S2, S3, S4, S5, S6; try done.
  destruct (decode_segment ICMPTypeServiceEntryBindingType icmpBack
              (d_icmp_entry d) r1) as (m1 & D1 & B1).
  { eapply Forall2_impl_elem; [exact S1|].
    intros e r Hin Henc. apply icmp_back; auto. }
  destruct (decode_segment L4PortSetServiceEntryBindingType l4Back
              (d_l4_port_set_entry d) r2) as (m2 & D2 & B2).
  { eapply Forall2_impl; [exact S2|]. intros e r. apply l4_back. }
  destruct (decode_segment IGMPTypeServiceEntryBindingType igmpBack
              (d_igmp_entry d) r3) as (m3 & D3 & B3).
  { eapply Forall2_impl; [exact S3|]. intros e r. apply igmp_back. }
  destruct (decode_segment EtherTypeServiceEntryBindingType etherBack
              (d_ether_type_entry d) r4) as (m4 & D4 & B4).
  { eapply Forall2_impl; [exact S4|]. intros e r. apply ether_back. }
  destruct (decode_segment IPProtocolServiceEntryBindingType ipProtBack
              (d_ip_protocol_entry d) r5) as (m5 & D5 & B5).
  { eapply Forall2_impl; [exact S5|]. intros e r. apply ipProt_back. }
  destruct (decode_segment ALGTypeServiceEntryBindingType algBack
              (d_algorithm_entry d) r6) as (m6 & D6 & B6).
  { eapply Forall2_impl; [exact S6|]. intros e r. apply alg_back. }
  exists r1, r2, r3, r4, r5, r6, u'. eexists.
  split; [done|]. split.
  { rewrite rangeServiceEntries_app, D1, rangeServiceEntries_app, D2,
      rangeServiceEntries_app, D3, rangeServiceEntries_app, D4,
      rangeServiceEntries_app, D5, D6. reflexivity. }
  change icmpEntriesList with (entriesOf ICMPTypeServiceEntryBindingType).
  change l4EntriesList with (entriesOf L4PortSetServiceEntryBindingType).
  change igmpEntriesList with (entriesOf IGMPTypeServiceEntryBindingType).
  change etherEntriesList with (entriesOf EtherTypeServiceEntryBindingType).
  change ipProtEntriesList
    with (entriesOf IPProtocolServiceEntryBindingType).
  change algEntriesList with (entriesOf ALGTypeServiceEntryBindingType).
  repeat first [ rewrite entriesOf_appendEntries
               | rewrite entriesOf_appendEntries_ne by done ].
  simpl. by repeat split.
Qed.

End RoundTrip.

(** Decimal strings of the range the schema admits for ICMP type and code
    read back as they were given. *)
Lemma canonical_Itoa n :
  0 ≤ n ≤ 255 → canonical (strconv.Itoa n) = strconv.Itoa n.
Proof.
  intros Hn.
  assert (H : forallb
                (λ k, String.eqb (canonical (strconv.Itoa (Z.of_nat k)))
                        (strconv.Itoa (Z.of_nat k)))
                (seq 0 256) = true) by (vm_compute; reflexivity).
  rewrite forallb_forall in H.
  specialize (H (Z.to_nat n)). rewrite Z2Nat.id in H by lia.
  apply String.eqb_eq, H, in_seq. lia.
Qed.

Lemma no_error_eta {A B C} (x : A * option B * C) :
  x.1.2 = None → x = ((x.1.1, None), x.2).
Proof. destruct x as [[a o] c]. simpl. by intros ->. Defined.

(** ** Concrete runs on the reference environment *)

Ltac ref_decodesAs :=
  split;
  [ vm_compute; reflexivity
  | intros b' Hlt; destruct b'; simpl in Hlt; try lia;
    vm_compute; reflexivity ].

Lemma display_name_suppression_witness :
  ∃ elem l',
    decodeEntry (recordOf L4PortSetServiceEntryBindingType l4_unnamed)
      nilEntryLists = Returned (inl l') ∧
    entriesOf L4PortSetServiceEntryBindingType l'
    = entriesOf L4PortSetServiceEntryBindingType nilEntryLists ++ [elem] ∧
    ("uuid-7" = "uuid-7" → elem !! "display_name" = Some (VString "")) ∧
    ("uuid-7" ≠ "uuid-7" →
     elem !! "display_name" = Some (VString "uuid-7")).
Proof.
  apply (display_name_suppression (conv := refConverter)
           (recordOf L4PortSetServiceEntryBindingType l4_unnamed)
           nilEntryLists L4PortSetServiceEntryBindingType l4_unnamed
           "uuid-7" "uuid-7").
  - ref_decodesAs.
  - reflexivity.
  - reflexivity.
  - exact I.
Defined.

Lemma trial_order_classification_witness :
  ∃ x : L4PortSetServiceEntry.t,
    ConvertToGolang (recordOf L4PortSetServiceEntryBindingType l4_unnamed)
      L4PortSetServiceEntryBindingType = Converted x ∧
    (readable L4PortSetServiceEntryBindingType x →
     ∃ elem l',
       decodeEntry (recordOf L4PortSetServiceEntryBindingType l4_unnamed)
         nilEntryLists = Returned (inl l') ∧
       entriesOf L4PortSetServiceEntryBindingType l'
       = entriesOf L4PortSetServiceEntryBindingType nilEntryLists ++ [elem] ∧
       ∀ b', b' ≠ L4PortSetServiceEntryBindingType →
             entriesOf b' l' = entriesOf b' nilEntryLists) ∧
    (¬ readable L4PortSetServiceEntryBindingType x →
     ∃ p, decodeEntry (recordOf L4PortSetServiceEntryBindingType l4_unnamed)
            nilEntryLists = Panicked p).
Proof.
  apply (trial_order_classification (conv := refConverter)
           (recordOf L4PortSetServiceEntryBindingType l4_unnamed)
           nilEntryLists L4PortSetServiceEntryBindingType).
  vm_compute; reflexivity.
Defined.

(** A record with no field at all decodes under no binding type. *)
Lemma unknown_variant_rejected_witness :
  (∀ l, decodeEntry (conv := refConverter) ∅ l
        = Returned (inr (externalError "resource_type"))) ∧
  (∀ pre post l l',
     rangeServiceEntries (conv := refConverter) pre l = Returned (inl l') →
     rangeServiceEntries (conv := refConverter) (pre ++ ∅ :: post) l
     = Returned (inr (externalError "resource_type"))) ∧
  (∀ (w : World) obj pre post l',
     d_Id (rd w) ≠ "" →
     remote_Get (d_Id (rd w)) (remote w) = inl obj →
     Service.ServiceEntries obj = pre ++ ∅ :: post →
     rangeServiceEntries pre nilEntryLists = Returned (inl l') →
     resourceNsxtPolicyServiceRead (hp := refHelpers) w
     = (Returned (Some (externalError "resource_type")),
        attributesSet w obj)).
Proof.
  apply (unknown_variant_rejected (conv := refConverter) (acc := refAccessor)
           (gen := refUUIDGen) (cl := refClient) (hp := refHelpers)
           (∅ : Fields) (externalError "resource_type") []).
  - vm_compute; reflexivity.
  - vm_compute; reflexivity.
Defined.

Lemma algorithm_read_precondition_witness :
  decodeEntry (recordOf ALGTypeServiceEntryBindingType alg_no_ports)
    nilEntryLists = Panicked IndexOutOfRange.
Proof.
  destruct (algorithm_read_precondition (conv := refConverter)
              (acc := refAccessor) (gen := refUUIDGen) (cl := refClient)
              (hp := refHelpers)
              (recordOf ALGTypeServiceEntryBindingType alg_no_ports)
              alg_no_ports) as [Hbody _].
  - ref_decodesAs.
  - destruct (Hbody nilEntryLists) as (_ & Hindex & _).
    apply Hindex. repeat split; eexists; reflexivity.
Defined.

Lemma empty_optional_invariant_witness :
  (∃ serviceEntry,
     icmpEntryBody icmp_any 0%nat
     = (toVapi ICMPTypeServiceEntryBindingType serviceEntry,
        (newUUID 0%nat).2) ∧
     serviceEntry = icmpStruct icmp_any None None (newUUID 0%nat).1 ∧
     ICMPTypeServiceEntry.IcmpType serviceEntry = None ∧
     ICMPTypeServiceEntry.IcmpCode serviceEntry = None) ∧
  (∃ elem,
     decodeEntry (recordOf ICMPTypeServiceEntryBindingType icmp_untyped)
       nilEntryLists
     = Returned (inl (appendEntry ICMPTypeServiceEntryBindingType elem
                        nilEntryLists)) ∧
     (ICMPTypeServiceEntry.IcmpType icmp_untyped = None →
      elem !! "icmp_type" = Some (VString "") ∧
      elem !! "icmp_type" ≠ Some (VString "0")) ∧
     (ICMPTypeServiceEntry.IcmpCode icmp_untyped = None →
      elem !! "icmp_code" = Some (VString "") ∧
      elem !! "icmp_code" ≠ Some (VString "0"))).
Proof.
  apply (empty_optional_invariant (conv := refConverter) (gen := refUUIDGen)
           icmp_any 0%nat
           (recordOf ICMPTypeServiceEntryBindingType icmp_untyped)
           nilEntryLists icmp_untyped "any" "uuid-3").
  all: vm_compute; reflexivity.
Defined.

Lemma encode_collection_order_witness :
  ∃ r1 r2 r3 r4 r5 r6,
    (resourceNsxtPolicyServiceGetEntriesFromSchema oneOfEach 0%nat).1.1
    = [r1; r2; r3; r4; r5; r6] ∧
    encodedBy icmpEntryBody icmp_ping r1 ∧ encodedBy l4EntryBody l4_web r2 ∧
    encodedBy igmpEntryBody igmp_all r3 ∧
    encodedBy etherEntryBody ether_ip r4 ∧
    encodedBy ipProtEntryBody ipProt_gre r5 ∧
    encodedBy algEntryBody alg_ftp r6.
Proof.
  destruct (encode_collection_order (conv := refConverter)
              (acc := refAccessor) (gen := refUUIDGen) oneOfEach 0%nat)
    as [_ Hsix].
  apply (Hsix icmp_ping l4_web igmp_all ether_ip ipProt_gre alg_ftp
           (resourceNsxtPolicyServiceGetEntriesFromSchema
              (conv := refConverter) (acc := refAccessor)
              (gen := refUUIDGen) oneOfEach 0%nat).1.1
           (resourceNsxtPolicyServiceGetEntriesFromSchema
              (conv := refConverter) (acc := refAccessor)
              (gen := refUUIDGen) oneOfEach 0%nat).2
           eq_refl eq_refl eq_refl eq_refl eq_refl eq_refl).
  apply no_error_eta. vm_compute; reflexivity.
Defined.

Lemma malformed_icmp_bad : malformed icmp_bad.
Proof.
  left. split; [discriminate|].
  exists (NumError "Atoi" "notanumber" ErrSyntax). reflexivity.
Defined.

Lemma parse_failure_abort_witness :
  ∃ recs er u',
    resourceNsxtPolicyServiceGetEntriesFromSchema (goodThenBad "svc" "")
      0%nat = ((recs, Some er), u') ∧
    segment icmpEntryBody (d_icmp_entry (goodThenBad "svc" "")) recs ∧
    (length recs ≤ 1)%nat ∧
    ∃ e' u0, d_icmp_entry (goodThenBad "svc" "") !! length recs = Some e' ∧
             (icmpEntryBody e' u0).1 = inr er.
Proof.
  apply (parse_failure_abort (conv := refConverter) (acc := refAccessor)
           (gen := refUUIDGen) (goodThenBad "svc" "") 0%nat 1%nat icmp_bad).
  - reflexivity.
  - exact malformed_icmp_bad.
Defined.

Lemma malformed_entry_fails_fast_witness :
  ∃ recs er u',
    resourceNsxtPolicyServiceGetEntriesFromSchema
      (rd (refWorld (goodThenBad "svc" "")))
      (uuids (refWorld (goodThenBad "svc" ""))) = ((recs, Some er), u') ∧
    (d_Id (rd (refWorld (goodThenBad "svc" ""))) ≠ "" →
     resourceNsxtPolicyServiceUpdate (refWorld (goodThenBad "svc" ""))
     = (Returned (Some (conversionError er)),
        mkWorld (rd (refWorld (goodThenBad "svc" ""))) u'
          (remote (refWorld (goodThenBad "svc" "")))
          (calls (refWorld (goodThenBad "svc" ""))))) ∧
    (∀ w0 id,
       getOrGenerateID resourceNsxtPolicyServiceExists w0
       = (Returned (id, None), refWorld (goodThenBad "svc" "")) →
       resourceNsxtPolicyServiceCreate w0
       = (Returned (Some (conversionError er)),
          mkWorld (rd (refWorld (goodThenBad "svc" ""))) u'
            (remote (refWorld (goodThenBad "svc" "")))
            (calls (refWorld (goodThenBad "svc" ""))))).
Proof.
  apply (malformed_entry_fails_fast (conv := refConverter)
           (acc := refAccessor) (gen := refUUIDGen) (cl := refClient)
           (hp := refHelpers) (refWorld (goodThenBad "svc" "")) 1%nat
           icmp_bad).
  - reflexivity.
  - exact malformed_icmp_bad.
Defined.

(** The service is not there: the client returns an error, the operation
    returns nil. *)
Lemma delete_returns_nil_witness :
  resourceNsxtPolicyServiceDelete (refWorld (goodThenBad "gone" ""))
  = (Returned None,
     mkWorld (goodThenBad "gone" "") 0%nat ∅ [CallDelete "gone"]).
Proof.
  apply (delete_returns_nil (conv := refConverter) (acc := refAccessor)
           (gen := refUUIDGen) (cl := refClient) (hp := refHelpers)
           (refWorld (goodThenBad "gone" "")) (Some notFound) ∅).
  - discriminate.
  - reflexivity.
Defined.

Lemma round_trip_canonical_witness :
  ∃ r1 r2 r3 r4 r5 r6 u' l,
    resourceNsxtPolicyServiceGetEntriesFromSchema oneOfEach 0%nat
    = ((r1 ++ r2 ++ r3 ++ r4 ++ r5 ++ r6, None), u') ∧
    rangeServiceEntries (r1 ++ r2 ++ r3 ++ r4 ++ r5 ++ r6) nilEntryLists
    = Returned (inl l) ∧
    Forall3 icmpBack (d_icmp_entry oneOfEach) r1 (icmpEntriesList l) ∧
    Forall3 l4Back (d_l4_port_set_entry oneOfEach) r2 (l4EntriesList l) ∧
    Forall3 igmpBack (d_igmp_entry oneOfEach) r3 (igmpEntriesList l) ∧
    Forall3 etherBack (d_ether_type_entry oneOfEach) r4
      (etherEntriesList l) ∧
    Forall3 ipProtBack (d_ip_protocol_entry oneOfEach) r5
      (ipProtEntriesList l) ∧
    Forall3 algBack (d_algorithm_entry oneOfEach) r6 (algEntriesList l).
Proof.
  apply (round_trip_canonical (conv := refConverter) (acc := refAccessor)
           (gen := refUUIDGen) (laws := refConverter_laws) oneOfEach 0%nat).
  intros e He. apply list_elem_of_singleton in He as ->.
  split; right; eexists; reflexivity.
Defined.

(** ** Where the specification and the code part *)

(** C1, counterexample. An ICMP type given as ["007"] parses, is sent as
    the integer 7, and is read back as ["7"]: the round trip does not
    reproduce the string. *)
Lemma round_trip_leading_zeros :
  parses icmp_zeros ∧
  (resourceNsxtPolicyServiceGetEntriesFromSchema zerosOnly 0%nat).1.2
  = None ∧
  match rangeServiceEntries
          (resourceNsxtPolicyServiceGetEntriesFromSchema zerosOnly 0%nat).1.1
          nilEntryLists with
  | Returned (inl l) => (λ m : Elem, m !! "icmp_type") <$> icmpEntriesList l
  | _ => []
  end = [Some (VString "7")] ∧
  icmp_entry.icmp_type <$> d_icmp_entry zerosOnly = ["007"].
Proof.
  split; [split; [right; by exists 7|by left]|].
  repeat split; vm_compute; reflexivity.
Qed.

(** C7, counterexample. With a valid ICMP entry before the malformed one
    the encode pass returns the error and, with it, the record of the
    valid entry: the list it returns is not empty. *)
Lemma parse_failure_partial_output :
  (resourceNsxtPolicyServiceGetEntriesFromSchema (goodThenBad "svc" "")
     0%nat).1.2
  = Some (NumError "Atoi" "notanumber" ErrSyntax) ∧
  length (resourceNsxtPolicyServiceGetEntriesFromSchema
            (goodThenBad "svc" "") 0%nat).1.1 = 1%nat.
Proof. split; vm_compute; reflexivity. Qed.

(** C8, counterexample. With a malformed ICMP entry, an update of a
    resource whose id is empty returns the error about the service id, not
    the conversion error; and a create with a configured [nsx_id], on an
    id initialisation that runs the presence checker it is handed, has
    called [Get] on the client before it returns the conversion error. *)
Lemma fail_fast_not_first :
  (resourceNsxtPolicyServiceUpdate (refWorld (goodThenBad "" ""))).1
  = Returned (Some (errorString "Error obtaining service id")) ∧
  (resourceNsxtPolicyServiceCreate (refWorld (goodThenBad "" "my-id"))).1
  = Returned (Some (conversionError
                      (NumError "Atoi" "notanumber" ErrSyntax))) ∧
  calls (resourceNsxtPolicyServiceCreate
           (refWorld (goodThenBad "" "my-id"))).2
  = [CallGet "my-id"].
Proof. repeat split; vm_compute; reflexivity. Qed.

(** * Further properties of the code *)

(** ** The operations and the client *)

Section OperationFacts.
Context {conv : TypeConverter} {acc : SchemaAccessor} {gen : UUIDGen}
        {cl : ServicesClient} {hp : Helpers}.

(** X1. The presence check asks the client once and answers true exactly
    when [Get] returned no error: a not-found error and any other error
    both count as absent. Nothing but the call log changes. *)
Theorem Exists_iff_Get_succeeds id w :
  resourceNsxtPolicyServiceExists id w
  = (Returned (match remote_Get id (remote w) with
               | inl _ => true
               | inr _ => false
               end),
     logged w (CallGet id)).
Proof.
  unfold resourceNsxtPolicyServiceExists, mbind, M_bind, client_Get, logged.
  destruct (remote_Get id (remote w)) as [obj|err]; [done|].
  by destruct (isNotFoundError err).
Qed.

(** X2. With an empty resource id, read, update and delete return the
    error about the service id and change nothing: no call on the client,
    no identifier drawn, no field set. *)
Theorem empty_id_guard w :
  d_Id (rd w) = "" →
  resourceNsxtPolicyServiceRead w
  = (Returned (Some (errorString "Error obtaining service id")), w) ∧
  resourceNsxtPolicyServiceUpdate w
  = (Returned (Some (errorString "Error obtaining service id")), w) ∧
  resourceNsxtPolicyServiceDelete w
  = (Returned (Some (errorString "Error obtaining service id")), w).
Proof.
  intros Hid.
  unfold resourceNsxtPolicyServiceRead, resourceNsxtPolicyServiceUpdate,
    resourceNsxtPolicyServiceDelete.
  unfold mbind, M_bind, getD. rewrite Hid.
  by destruct (decide ("" = "")).
Qed.

Lemma dSet_sameOutside key v w : sameOutside w (dSet key v w).2.
Proof. unfold dSet. by destruct (d_Set key v (rd w)). Qed.

Lemma sameOutside_trans w1 w2 w3 :
  sameOutside w1 w2 → sameOutside w2 w3 → sameOutside w1 w3.
Proof. intros (?&?&?) (?&?&?). repeat split; congruence. Qed.

Lemma sameOutside_refl w : sameOutside w w.
Proof. done. Qed.

Lemma setServiceAttributes_sameOutside id obj w :
  sameOutside w (setServiceAttributes id obj w).2.
Proof.
  unfold setServiceAttributes, dSet, modifyD, mbind, M_bind, mret, M_ret.
  simpl. repeat (destruct (d_Set _ _ _); simpl). done.
Qed.

Lemma setOrReturn_sameOutside key l k w :
  (∀ w1, sameOutside w1 (k w1).2) →
  sameOutside w (setOrReturn key l k w).2.
Proof.
  intros Hk. unfold setOrReturn, mbind, M_bind.
  pose proof (dSet_sameOutside key (SetEntries l) w) as Hs.
  destruct (dSet key (SetEntries l) w) as [[[e|]|p] w1]; simpl in *;
    try done.
  eapply sameOutside_trans; [exact Hs|apply Hk].
Qed.

Lemma setEntryLists_sameOutside l w : sameOutside w (setEntryLists l w).2.
Proof.
  unfold setEntryLists.
  repeat (apply setOrReturn_sameOutside; intros ?).
  apply sameOutside_refl.
Qed.

(** X3. A read never writes to the remote side. With a non-empty id, and
    an error handler that makes no call of its own, the read operation
    makes exactly one call on the client, a [Get] of the resource id, and
    leaves the remote side and the identifier generator as they were,
    whether it returns nil, returns an error or panics. *)
Theorem Read_only_gets w :
  (∀ rt id err w1, sameOutside w1 (handleReadError rt id err w1).2) →
  d_Id (rd w) ≠ "" →
  remote (resourceNsxtPolicyServiceRead w).2 = remote w ∧
  calls (resourceNsxtPolicyServiceRead w).2
  = calls w ++ [CallGet (d_Id (rd w))] ∧
  uuids (resourceNsxtPolicyServiceRead w).2 = uuids w.
Proof.
  intros Hh Hid.
  assert (Hs : sameOutside (logged w (CallGet (d_Id (rd w))))
                 (resourceNsxtPolicyServiceRead w).2).
  { destruct (remote_Get (d_Id (rd w)) (remote w)) as [obj|err] eqn:Hg.
    - rewrite (Read_entries w obj Hid Hg). unfold attributesSet.
      pose proof (setServiceAttributes_sameOutside (d_Id (rd w)) obj
                    (logged w (CallGet (d_Id (rd w))))) as Ha.
      unfold logged in *.
      destruct (rangeServiceEntries _ _) as [[l|e]|p]; simpl; try done.
      eapply sameOutside_trans; [exact Ha|apply setEntryLists_sameOutside].
    - unfold resourceNsxtPolicyServiceRead.
      unfold mbind at 1, M_bind at 1, getD at 1.
      destruct (decide (d_Id (rd w) = "")) as [|_]; [done|].
      unfold mbind, M_bind, client_Get. rewrite Hg. apply Hh. }
  destruct Hs as (Hr & Hc & Hu). by rewrite Hr, Hc, Hu.
Qed.

(** X4. When the id initialisation of a create fails, the create returns
    its error and does nothing more: the world is the one the id
    initialisation left. *)
Theorem Create_id_error w0 id err w :
  getOrGenerateID resourceNsxtPolicyServiceExists w0
  = (Returned (id, Some err), w) →
  resourceNsxtPolicyServiceCreate w0 = (Returned (Some err), w).
Proof.
  intros Hg. unfold resourceNsxtPolicyServiceCreate.
  unfold mbind, M_bind. by rewrite Hg.
Qed.

(** X5. When the conversion succeeds and the client rejects the [Patch],
    the create returns the error the create handler makes of it. The
    object sent carries the configured name, description and tags, the
    converted records, and no revision; the resource id is not set and
    nothing is read back. *)
Theorem Create_patch_error w0 id w recs u' err r' :
  getOrGenerateID resourceNsxtPolicyServiceExists w0
  = (Returned (id, None), w) →
  resourceNsxtPolicyServiceGetEntriesFromSchema (rd w) (uuids w)
  = ((recs, None), u') →
  remote_Patch id (createObject (rd w) recs) (remote w) = (Some err, r') →
  resourceNsxtPolicyServiceCreate w0
  = (Returned (Some (handleCreateError "Service" id err)),
     mkWorld (rd w) u' r'
       (calls w ++ [CallPatch id (createObject (rd w) recs)])).
Proof.
  intros Hg He Hp. unfold resourceNsxtPolicyServiceCreate.
  unfold mbind at 1, M_bind at 1. rewrite Hg.
  unfold mbind at 1, M_bind at 1, getD at 1.
  unfold mbind at 1, M_bind at 1, liftGen at 1. rewrite He.
  unfold mbind at 1, M_bind at 1, client_Patch at 1. simpl.
  unfold createObject in Hp. by rewrite Hp.
Qed.

(** X6. When the conversion succeeds and the client rejects the
    [Update], the update returns the error the update handler makes of it.
    The object sent carries the configured revision; the resource data is
    untouched and nothing is read back. *)
Theorem Update_client_error w recs u' err r' :
  d_Id (rd w) ≠ "" →
  resourceNsxtPolicyServiceGetEntriesFromSchema (rd w) (uuids w)
  = ((recs, None), u') →
  remote_Update (d_Id (rd w)) (updateObject (rd w) recs) (remote w)
  = (inr err, r') →
  Service.Revision (updateObject (rd w) recs)
  = Some (d_GetInt "revision" (rd w)) ∧
  resourceNsxtPolicyServiceUpdate w
  = (Returned (Some (handleUpdateError "Service" (d_Id (rd w)) err)),
     mkWorld (rd w) u' r'
       (calls w
        ++ [CallUpdate (d_Id (rd w)) (updateObject (rd w) recs)])).
Proof.
  intros Hid He Hu. split; [done|].
  unfold resourceNsxtPolicyServiceUpdate.
  unfold mbind at 1, M_bind at 1, getD at 1.
  destruct (decide (d_Id (rd w) = "")) as [|_]; [done|].
  unfold mbind at 1, M_bind at 1, liftGen at 1. rewrite He.
  unfold mbind at 1, M_bind at 1, client_Update at 1. simpl.
  unfold updateObject in Hu. by rewrite Hu.
Qed.

End OperationFacts.

(** ** The decode loop as a whole *)

Section DecodeLoopFacts.
Context {conv : TypeConverter}.
Implicit Types (entry : StructValue) (l : EntryLists) (b : BindingType).

(** Whatever the body appends is one element, on one list, with the keys
    of that list's schema. *)
Lemma decodeEntry_appends entry l l' :
  decodeEntry entry l = Returned (inl l') →
  ∃ b elem, l' = appendEntry b elem l ∧ dom elem = entrySchemaKeys b.
Proof.
  unfold decodeEntry.
  repeat match goal with
         | |- context [ConvertToGolang entry ?b'] =>
             destruct (ConvertToGolang entry b')
         end;
    repeat match goal with
           | |- context [deref ?o] => destruct o; simpl
           | |- context [index0 ?o] => destruct o; simpl
           end;
    try discriminate.
  all: unfold mret, outcome_ret; intros [= <-].
  all: eexists _, _; split; [reflexivity|].
  all: repeat match goal with
              | |- context [match ?o with Some _ => _ | None => _ end] =>
                  destruct o
              end.
  all: rewrite !dom_insert_L, dom_empty_L; simpl; set_solver.
Qed.

Lemma totalEntries_appendEntry b elem l :
  totalEntries (appendEntry b elem l) = S (totalEntries l).
Proof.
  destruct l, b; unfold totalEntries; simpl; rewrite length_app; simpl; lia.
Qed.

Lemma entriesOf_appendEntry_prefix b b' elem l :
  entriesOf b' l `prefix_of` entriesOf b' (appendEntry b elem l).
Proof.
  destruct (decide (b' = b)) as [->|Hne].
  - rewrite entriesOf_appendEntry. by apply prefix_app_r.
  - by rewrite entriesOf_appendEntry_ne.
Qed.

Lemma entriesOf_appendEntry_elem b b' elem l m :
  m ∈ entriesOf b' (appendEntry b elem l) →
  m ∈ entriesOf b' l ∨ (b' = b ∧ m = elem).
Proof.
  destruct (decide (b' = b)) as [->|Hne].
  - rewrite entriesOf_appendEntry, elem_of_app, list_elem_of_singleton.
    intros [?|Hm]; [by left|right]. by rewrite Hm.
  - rewrite entriesOf_appendEntry_ne by done. auto.
Qed.

(** X7. No record is dropped and none is counted twice: when the decode
    loop returns its six lists they hold, together, one element more per
    record than before, and every list it started from is kept as the
    beginning of the list it returns. *)
Theorem decode_conserves_records recs l l' :
  rangeServiceEntries recs l = Returned (inl l') →
  totalEntries l' = (totalEntries l + length recs)%nat ∧
  ∀ b, entriesOf b l `prefix_of` entriesOf b l'.
Proof.
  revert l. induction recs as [|entry recs IH]; intros l; simpl.
  - intros [= <-]. split; [lia|done].
  - destruct (decodeEntry entry l) as [[l1|err]|p] eqn:Hd; simpl;
      try discriminate.
    intros Hr. destruct (IH _ Hr) as [Ht Hp].
    destruct (decodeEntry_appends _ _ _ Hd) as (b & elem & -> & _).
    rewrite totalEntries_appendEntry in Ht. split; [lia|].
    intros b'. etrans; [apply entriesOf_appendEntry_prefix|apply Hp].
Qed.

(** X8. Every element the read operation is about to set has exactly the
    keys the schema declares for its collection: the loop adds no key the
    schema lacks and leaves none out. *)
Theorem decoded_elements_have_schema_keys recs l b m :
  rangeServiceEntries recs nilEntryLists = Returned (inl l) →
  m ∈ entriesOf b l →
  dom m = entrySchemaKeys b.
Proof.
  assert (H : ∀ l0 l1,
    (∀ b m, m ∈ entriesOf b l0 → dom m = entrySchemaKeys b) →
    rangeServiceEntries recs l0 = Returned (inl l1) →
    ∀ b m, m ∈ entriesOf b l1 → dom m = entrySchemaKeys b).
  { induction recs as [|entry recs IH]; intros l0 l1 H0; simpl.
    - by intros [= <-].
    - destruct (decodeEntry entry l0) as [[l2|err]|p] eqn:Hd; simpl;
        try discriminate.
      apply IH. intros b' m'.
      destruct (decodeEntry_appends _ _ _ Hd) as (b0 & elem & -> & Hk).
      intros [?|[-> ->]]%entriesOf_appendEntry_elem; [by apply H0|done]. }
  intros Hr. apply (H nilEntryLists l); [|done].
  intros b' m'. destruct b'; simpl; by intros ?%elem_of_nil.
Qed.

(** X9. Decoding records laid end to end is decoding the first part and
    then the second part from the lists the first part gave; an error or a
    panic in the first part is the result, and the second part is not
    looked at. *)
Theorem decode_concatenation pre post l :
  rangeServiceEntries (pre ++ post) l =
  match rangeServiceEntries pre l with
  | Returned (inl l') => rangeServiceEntries post l'
  | Returned (inr err) => Returned (inr err)
  | Panicked p => Panicked p
  end.
Proof.
  revert l. induction pre as [|entry pre IH]; intros l; simpl; [done|].
  destruct (decodeEntry entry l) as [[l'|err]|p]; simpl; [apply IH|done..].
Qed.

End DecodeLoopFacts.

(** ** The encode pass as a whole *)

Section EncodeMore.
Context {conv : TypeConverter} {acc : SchemaAccessor} {gen : UUIDGen}.

Lemma Atoi_error v er :
  strconv.Atoi v = inr er → ∃ k, er = NumError "Atoi" v k.
Proof.
  unfold strconv.Atoi, strconv.syntaxError, strconv.rangeError.
  intros H. repeat case_match; simplify_eq; eauto.
Qed.

Lemma parsesField_or_fails v : parsesField v ∨ failsParsing v.
Proof.
  unfold parsesField, failsParsing.
  destruct (decide (v = "")) as [->|Hv]; [by left; left|].
  destruct (strconv.Atoi v) as [n|er] eqn:Ha; [left; right|right]; eauto.
Qed.

Lemma parses_not_malformed e : parses e → ¬ malformed e.
Proof.
  intros [Ht Hc] [[Hv [er He]]|[Hv [er He]]].
  - destruct Ht as [?|[n Hn]]; [done|congruence].
  - destruct Hc as [?|[n Hn]]; [done|congruence].
Qed.

(** The field whose parse error an ICMP loop body returned. *)
Lemma icmpEntryBody_error e u er :
  (∀ b (x : golang b), isConverted (ConvertToVapi b x) = true) →
  (icmpEntryBody e u).1 = inr er →
  ∃ v, (v = icmp_entry.icmp_type e ∨ v = icmp_entry.icmp_code e) ∧
       v ≠ "" ∧ strconv.Atoi v = inr er.
Proof.
  intros Htot. rewrite icmpEntryBody_eq.
  destruct (optionalAtoi (icmp_entry.icmp_type e)) as [typePtr|er1] eqn:Ht.
  - destruct (optionalAtoi (icmp_entry.icmp_code e)) as [codePtr|er2] eqn:Hc.
    + simpl. unfold toVapi.
      pose proof (Htot ICMPTypeServiceEntryBindingType
                    (icmpStruct e typePtr codePtr (newUUID u).1)) as H.
      by destruct (ConvertToVapi _ _).
    + simpl. intros [= ->]. apply optionalAtoi_inr in Hc as [? ?].
      exists (icmp_entry.icmp_code e). auto.
  - simpl. intros [= ->]. apply optionalAtoi_inr in Ht as [? ?].
    exists (icmp_entry.icmp_type e). auto.
Qed.

Lemma toVapi_never_fails b (x : golang b) er :
  (∀ b (x : golang b), isConverted (ConvertToVapi b x) = true) →
  toVapi b x ≠ inr er.
Proof.
  intros Htot. unfold toVapi. pose proof (Htot b x) as H.
  by destruct (ConvertToVapi b x).
Qed.

(** X10. With a converter that never fails, the encode pass fails exactly
    when some ICMP entry has a malformed type or code. The error it
    returns is then the [strconv.Atoi] error of such a field, which names
    the offending string; and when it returns no error it returns one
    record for every entry of the six collections. *)
Theorem encode_fails_iff_malformed d u :
  (∀ b (x : golang b), isConverted (ConvertToVapi b x) = true) →
  ((resourceNsxtPolicyServiceGetEntriesFromSchema d u).1.2 = None ↔
   ∀ e, e ∈ d_icmp_entry d → parses e) ∧
  (∀ er,
     (resourceNsxtPolicyServiceGetEntriesFromSchema d u).1.2 = Some er →
     ∃ e v k,
       e ∈ d_icmp_entry d ∧
       (v = icmp_entry.icmp_type e ∨ v = icmp_entry.icmp_code e) ∧
       v ≠ "" ∧ strconv.Atoi v = inr er ∧ er = NumError "Atoi" v k) ∧
  ((resourceNsxtPolicyServiceGetEntriesFromSchema d u).1.2 = None →
   length (resourceNsxtPolicyServiceGetEntriesFromSchema d u).1.1
   = (length (d_icmp_entry d) + length (d_l4_port_set_entry d)
      + length (d_igmp_entry d) + length (d_ether_type_entry d)
      + length (d_ip_protocol_entry d) + length (d_algorithm_entry d))%nat).
Proof.
  intros Htot.
  destruct (encode_shape d u)
    as (r1 & r2 & r3 & r4 & r5 & r6 & err & u' & He & _ & _ & _ & _ & _ & _
        & Hend).
  rewrite He. simpl.
  assert (Hcause : ∀ er, err = Some er →
    ∃ e v k,
      e ∈ d_icmp_entry d ∧
      (v = icmp_entry.icmp_type e ∨ v = icmp_entry.icmp_code e) ∧
      v ≠ "" ∧ strconv.Atoi v = inr er ∧ er = NumError "Atoi" v k).
  { intros er ->.
    destruct Hend as [H|[H|[H|[H|[H|H]]]]];
      destruct H as (e & u0 & Hl & Hb).
    - destruct (icmpEntryBody_error e u0 er Htot Hb) as (v & Hv & Hne & Ha).
      destruct (Atoi_error _ _ Ha) as [k Hk].
      exists e, v, k. split; [by eapply list_elem_of_lookup_2|done].
    - rewrite l4EntryBody_eq in Hb. by apply toVapi_never_fails in Hb.
    - rewrite igmpEntryBody_eq in Hb. by apply toVapi_never_fails in Hb.
    - rewrite etherEntryBody_eq in Hb. by apply toVapi_never_fails in Hb.
    - rewrite ipProtEntryBody_eq in Hb. by apply toVapi_never_fails in Hb.
    - rewrite algEntryBody_eq in Hb. by apply toVapi_never_fails in Hb. }
  split; [split|split; [done|]].
  - intros -> e [i Hi]%list_elem_of_lookup_1.
    destruct (parsesField_or_fails (icmp_entry.icmp_type e)) as [Ht|Ht];
      [destruct (parsesField_or_fails (icmp_entry.icmp_code e)) as [Hc|Hc];
       [done|]|].
    + destruct (icmp_loop_stops d u i e Hi (or_intror Hc))
        as (recs & er & u1 & Hl%encode_icmp_error & _). congruence.
    + destruct (icmp_loop_stops d u i e Hi (or_introl Ht))
        as (recs & er & u1 & Hl%encode_icmp_error & _). congruence.
  - intros Hp. destruct err as [er|]; [|done].
    destruct (Hcause er eq_refl) as (e & v & k & Hin & Hv & Hne & Ha & _).
    destruct (parses_not_malformed e (Hp e Hin)).
    destruct Hv as [->| ->]; [left|right]; split; eauto.
  - intros ->. destruct Hend as (L1 & L2 & L3 & L4 & L5 & L6).
    rewrite !length_app. lia.
Qed.

End EncodeMore.

(** ** Identifiers, and the way back *)

Section FreshIds.
Context {conv : TypeConverter} {acc : SchemaAccessor} {gen : UUIDGen}.
Context {laws : ConverterLaws conv}.

Lemma drawn_snoc n u :
  drawn (S n) u = drawn n u ++ [(newUUID (advance n u)).1].
Proof.
  revert u. induction n as [|n IH]; intros u; [done|].
  change (drawn (S (S n)) u) with ((newUUID u).1 :: drawn (S n) (newUUID u).2).
  by rewrite IH.
Qed.

Lemma advance_snoc n u : advance (S n) u = (newUUID (advance n u)).2.
Proof.
  revert u. induction n as [|n IH]; intros u; [done|].
  change (advance (S (S n)) u) with (advance (S n) (newUUID u).2).
  by rewrite IH.
Qed.

Lemma carriedId_converted b (x : golang b) r :
  ConvertToVapi b x = Converted r → carriedId r = entryId b x.
Proof.
  intros Hx. unfold carriedId.
  destruct (converted_decodesAs _ _ _ Hx) as [Hg He].
  assert (Hf : firstDecodable r = Some b).
  { apply firstDecodable_Some. by rewrite Hg. }
  rewrite Hf. by apply converted_recordId.
Qed.

Lemma toVapi_drawsOne b (x : golang b) (u : UUIDState) id :
  entryId b x = Some id →
  match (toVapi b x, u) with
  | (inl r, u') => u' = u ∧ carriedId r = Some id
  | (inr _, u') => False
  end.
Proof.
  intros Hid. destruct (toVapi b x) as [r|er] eqn:Hv.
  - split; [done|]. apply toVapi_inl in Hv.
    by rewrite (carriedId_converted _ _ _ Hv).
  - by apply toVapi_total in Hv.
Qed.

Lemma icmpEntryBody_drawsOne : drawsOne icmpEntryBody.
Proof.
  intros e u. rewrite icmpEntryBody_eq.
  destruct (optionalAtoi (icmp_entry.icmp_type e)) as [typePtr|]; [|done].
  destruct (optionalAtoi (icmp_entry.icmp_code e)) as [codePtr|]; [|done].
  pose proof (toVapi_drawsOne ICMPTypeServiceEntryBindingType
    (icmpStruct e typePtr codePtr (newUUID u).1) (newUUID u).2 _ eq_refl).
  by destruct (toVapi _ _).
Qed.

Lemma l4EntryBody_drawsOne : drawsOne l4EntryBody.
Proof.
  intros e u. rewrite l4EntryBody_eq.
  pose proof (toVapi_drawsOne L4PortSetServiceEntryBindingType
    (l4Struct e (newUUID u).1) (newUUID u).2 _ eq_refl).
  by destruct (toVapi _ _).
Qed.

Lemma igmpEntryBody_drawsOne : drawsOne igmpEntryBody.
Proof.
  intros e u. rewrite igmpEntryBody_eq.
  pose proof (toVapi_drawsOne IGMPTypeServiceEntryBindingType
    (igmpStruct e (newUUID u).1) (newUUID u).2 _ eq_refl).
  by destruct (toVapi _ _).
Qed.

Lemma etherEntryBody_drawsOne : drawsOne etherEntryBody.
Proof.
  intros e u. rewrite etherEntryBody_eq.
  pose proof (toVapi_drawsOne EtherTypeServiceEntryBindingType
    (etherStruct e (newUUID u).1) (newUUID u).2 _ eq_refl).
  by destruct (toVapi _ _).
Qed.

Lemma ipProtEntryBody_drawsOne : drawsOne ipProtEntryBody.
Proof.
  intros e u. rewrite ipProtEntryBody_eq.
  pose proof (toVapi_drawsOne IPProtocolServiceEntryBindingType
    (ipProtStruct e (newUUID u).1) (newUUID u).2 _ eq_refl).
  by destruct (toVapi _ _).
Qed.

Lemma algEntryBody_drawsOne : drawsOne algEntryBody.
Proof.
  intros e u. rewrite algEntryBody_eq.
  pose proof (toVapi_drawsOne ALGTypeServiceEntryBindingType
    (algStruct e (newUUID u).1) (newUUID u).2 _ eq_refl).
  by destruct (toVapi _ _).
Qed.

Lemma rangeEntries_idsInOrder {A} body (entries : list A) u0 :
  drawsOne body →
  ∀ serviceEntries u res err u',
    idsInOrder u0 serviceEntries u →
    rangeEntries body entries serviceEntries u = ((res, err), u') →
    idsInOrder u0 res u'.
Proof.
  intros Hb. induction entries as [|e rest IH];
    intros serviceEntries u res err u' Hinv.
  - by intros [= <- <- <-].
  - rewrite rangeEntries_cons. pose proof (Hb e u) as He.
    destruct (body e u) as [[r|er] u1].
    + destruct He as [-> Hid]. apply IH.
      destruct Hinv as [Hids ->]. unfold idsInOrder.
      rewrite length_app. simpl. rewrite Nat.add_1_r.
      rewrite drawn_snoc, advance_snoc, !fmap_app, Hids. simpl.
      by rewrite Hid.
    + subst u1. by intros [= <- <- <-].
Qed.

Lemma thenRange_idsInOrder {A} body (entries : list A) u0 prev u res err u' :
  drawsOne body →
  idsInOrder u0 prev.1 u →
  thenRange body entries prev u = ((res, err), u') →
  idsInOrder u0 res u'.
Proof.
  intros Hb Hinv. destruct prev as [serviceEntries [e0|]]; simpl in *.
  - by intros [= <- <- <-].
  - by apply rangeEntries_idsInOrder.
Qed.

(** X11. "Use a different random Id each time": the records the encode
    pass returns carry, in order, the identifiers the generator gave on its
    first calls, one call per record, and the generator is left where
    those calls put it. When the generator does not repeat itself no two
    records share an identifier. *)
Theorem records_carry_fresh_ids d u recs err u' :
  resourceNsxtPolicyServiceGetEntriesFromSchema d u = ((recs, err), u') →
  carriedId <$> recs = Some <$> drawn (length recs) u ∧
  u' = advance (length recs) u ∧
  (NoDup (drawn (length recs) u) → NoDup (carriedId <$> recs)).
Proof.
  unfold resourceNsxtPolicyServiceGetEntriesFromSchema.
  unfold mbind, State_bind. intros He.
  destruct (rangeEntries icmpEntryBody _ _ _) as [[s1 e1] u1] eqn:H1.
  destruct (thenRange l4EntryBody _ _ _) as [[s2 e2] u2] eqn:H2.
  destruct (thenRange igmpEntryBody _ _ _) as [[s3 e3] u3] eqn:H3.
  destruct (thenRange etherEntryBody _ _ _) as [[s4 e4] u4] eqn:H4.
  destruct (thenRange ipProtEntryBody _ _ _) as [[s5 e5] u5] eqn:H5.
  apply (rangeEntries_idsInOrder _ _ u icmpEntryBody_drawsOne) in H1;
    [|done].
  apply (thenRange_idsInOrder _ _ u _ _ _ _ _ l4EntryBody_drawsOne) in H2;
    [|done].
  apply (thenRange_idsInOrder _ _ u _ _ _ _ _ igmpEntryBody_drawsOne) in H3;
    [|done].
  apply (thenRange_idsInOrder _ _ u _ _ _ _ _ etherEntryBody_drawsOne) in H4;
    [|done].
  apply (thenRange_idsInOrder _ _ u _ _ _ _ _ ipProtEntryBody_drawsOne) in H5;
    [|done].
  apply (thenRange_idsInOrder _ _ u _ _ _ _ _ algEntryBody_drawsOne) in He;
    [|done].
  destruct He as [Hids Hu]. split; [done|]. split; [done|].
  intros Hnd. rewrite Hids. apply NoDup_fmap; [|done].
  by intros ?? [= ->].
Qed.

Lemma Atoi_Itoa_byte n :
  0 ≤ n ≤ 255 → strconv.Atoi (strconv.Itoa n) = inl n.
Proof.
  intros Hn.
  assert (H : forallb
                (λ k, bool_decide
                        (strconv.Atoi (strconv.Itoa (Z.of_nat k))
                         = inl (Z.of_nat k)))
                (seq 0 256) = true) by (vm_compute; reflexivity).
  rewrite forallb_forall in H.
  specialize (H (Z.to_nat n)). rewrite Z2Nat.id in H by lia.
  eapply bool_decide_eq_true_1, H, in_seq. lia.
Qed.

Lemma decimalField_parses v : decimalField v → parsesField v.
Proof.
  intros [->|(n & Hn & ->)]; [by left|right].
  exists n. by apply Atoi_Itoa_byte.
Qed.

Lemma decimalField_canonical v : decimalField v → canonical v = v.
Proof.
  intros [->|(n & Hn & ->)]; [done|]. by apply canonical_Itoa.
Qed.

(** X12. An ICMP entry whose type and code are empty or written the way
    [strconv.Itoa] writes an integer of the range 0..255 comes back from
    the converter with the very strings it was given, and with its
    protocol and description. *)
Theorem icmp_decimal_round_trip e r :
  decimalField (icmp_entry.icmp_type e) →
  decimalField (icmp_entry.icmp_code e) →
  encodedBy icmpEntryBody e r →
  ∃ m,
    decodesTo ICMPTypeServiceEntryBindingType r m ∧
    m !! "icmp_type" = Some (VString (icmp_entry.icmp_type e)) ∧
    m !! "icmp_code" = Some (VString (icmp_entry.icmp_code e)) ∧
    m !! "protocol" = Some (VString (icmp_entry.protocol e)) ∧
    m !! "description"
    = Some (VStringPtr (Some (icmp_entry.description e))).
Proof.
  intros Ht Hc Henc.
  destruct (icmp_back e r) as (m & Hd & _ & Hdesc & Hp & Hty & Hco);
    [by split; apply decimalField_parses|done|].
  exists m. rewrite (decimalField_canonical _ Ht) in Hty.
  rewrite (decimalField_canonical _ Hc) in Hco. done.
Qed.

End FreshIds.

(** ** Create and update, to the end *)

Section ReadBack.
Context {conv : TypeConverter} {acc : SchemaAccessor} {gen : UUIDGen}
        {cl : ServicesClient} {hp : Helpers}.
Context {laws : ConverterLaws conv}.

Lemma optionalAtoi_inl_parses v p : optionalAtoi v = inl p → parsesField v.
Proof.
  unfold optionalAtoi, parsesField. case_decide as Hv.
  - destruct (strconv.Atoi v) as [n|]; [eauto|done].
  - intros _. left. by destruct (decide (v = "")) as [?|Hne];
      [|destruct Hv].
Qed.

Lemma encodedBy_icmp_parses e r : encodedBy icmpEntryBody e r → parses e.
Proof.
  intros (u & u' & Hb). rewrite icmpEntryBody_eq in Hb.
  destruct (optionalAtoi (icmp_entry.icmp_type e)) eqn:Ht; [|done].
  destruct (optionalAtoi (icmp_entry.icmp_code e)) eqn:Hc; [|done].
  split; by eapply optionalAtoi_inl_parses.
Qed.

(** The records of a successful encode pass all decode. *)
Lemma encoded_records_decode d u recs u' :
  resourceNsxtPolicyServiceGetEntriesFromSchema d u = ((recs, None), u') →
  ∃ l, rangeServiceEntries recs nilEntryLists = Returned (inl l).
Proof.
  intros He0.
  destruct (encode_shape d u)
    as (r1 & r2 & r3 & r4 & r5 & r6 & err & u1 & He & S1 & S2 & S3 & S4
        & S5 & S6 & Hend).
  rewrite He in He0. injection He0 as <- -> _.
  destruct Hend as (L1 & L2 & L3 & L4 & L5 & L6).
  apply full_segment in S1, S2, S3, S4, S5, S6; try done.
  destruct (decode_segment ICMPTypeServiceEntryBindingType icmpBack
              (d_icmp_entry d) r1) as (m1 & D1 & _).
  { eapply Forall2_impl; [exact S1|].
    intros e r Henc. apply icmp_back; [|done].
    by eapply encodedBy_icmp_parses. }
  destruct (decode_segment L4PortSetServiceEntryBindingType l4Back
              (d_l4_port_set_entry d) r2) as (m2 & D2 & _).
  { eapply Forall2_impl; [exact S2|]. intros e r. apply l4_back. }
  destruct (decode_segment IGMPTypeServiceEntryBindingType igmpBack
              (d_igmp_entry d) r3) as (m3 & D3 & _).
  { eapply Forall2_impl; [exact S3|]. intros e r. apply igmp_back. }
  destruct (decode_segment EtherTypeServiceEntryBindingType etherBack
              (d_ether_type_entry d) r4) as (m4 & D4 & _).
  { eapply Forall2_impl; [exact S4|]. intros e r. apply ether_back. }
  destruct (decode_segment IPProtocolServiceEntryBindingType ipProtBack
              (d_ip_protocol_entry d) r5) as (m5 & D5 & _).
  { eapply Forall2_impl; [exact S5|]. intros e r. apply ipProt_back. }
  destruct (decode_segment ALGTypeServiceEntryBindingType algBack
              (d_algorithm_entry d) r6) as (m6 & D6 & _).
  { eapply Forall2_impl; [exact S6|]. intros e r. apply alg_back. }
  eexists.
  rewrite rangeServiceEntries_app, D1, rangeServiceEntries_app, D2,
    rangeServiceEntries_app, D3, rangeServiceEntries_app, D4,
    rangeServiceEntries_app, D5, D6. reflexivity.
Qed.

Lemma setOrReturn_accepted key l k w :
  (∀ k v d, (d_Set k v d).2 = None) →
  (∀ w1, (k w1).1 = Returned None) →
  (setOrReturn key l k w).1 = Returned None.
Proof.
  intros Hset Hk. unfold setOrReturn, mbind, M_bind, dSet.
  pose proof (Hset key (SetEntries l) (rd w)) as H.
  destruct (d_Set key (SetEntries l) (rd w)) as [d' e]. simpl in H.
  subst e. apply Hk.
Qed.

Lemma setEntryLists_accepted l w :
  (∀ k v d, (d_Set k v d).2 = None) →
  (setEntryLists l w).1 = Returned None.
Proof.
  intros Hset. unfold setEntryLists.
  repeat (apply setOrReturn_accepted; [done|intros ?]). done.
Qed.

(** A read of a service whose entries are the records of a successful
    encode pass returns nil, after one [Get]. *)
Lemma Read_of_encoded w obj d u u' :
  (∀ k v d, (d_Set k v d).2 = None) →
  d_Id (rd w) ≠ "" →
  remote_Get (d_Id (rd w)) (remote w) = inl obj →
  resourceNsxtPolicyServiceGetEntriesFromSchema d u
  = ((Service.ServiceEntries obj, None), u') →
  (resourceNsxtPolicyServiceRead w).1 = Returned None ∧
  sameOutside (logged w (CallGet (d_Id (rd w))))
    (resourceNsxtPolicyServiceRead w).2.
Proof.
  intros Hset Hid Hg He.
  destruct (encoded_records_decode _ _ _ _ He) as [l Hl].
  rewrite (Read_entries w obj Hid Hg), Hl.
  split; [by apply setEntryLists_accepted|].
  eapply sameOutside_trans; [|apply setEntryLists_sameOutside].
  apply setServiceAttributes_sameOutside.
Qed.

(** X13. A create goes through. Let the converter be a faithful codec and
    the schema accept what is set; let the id initialisation give a
    non-empty id, the conversion succeed, the client accept the [Patch]
    and then return, for that id, a service holding the records it was
    sent. Then the create returns nil: the read-back classifies every
    record, fails on none and panics on none. The client saw the [Patch]
    and one [Get], in that order, and nothing else. *)
Theorem Create_goes_through w0 id w recs u' r' obj' :
  AccessorLaws acc →
  (∀ k v d, (d_Set k v d).2 = None) →
  getOrGenerateID resourceNsxtPolicyServiceExists w0
  = (Returned (id, None), w) →
  id ≠ "" →
  resourceNsxtPolicyServiceGetEntriesFromSchema (rd w) (uuids w)
  = ((recs, None), u') →
  remote_Patch id (createObject (rd w) recs) (remote w) = (None, r') →
  remote_Get id r' = inl obj' →
  Service.ServiceEntries obj' = recs →
  (resourceNsxtPolicyServiceCreate w0).1 = Returned None ∧
  calls (resourceNsxtPolicyServiceCreate w0).2
  = calls w ++ [CallPatch id (createObject (rd w) recs); CallGet id] ∧
  remote (resourceNsxtPolicyServiceCreate w0).2 = r'.
Proof.
  intros Hacc Hset Hg Hid He Hp Hget Hrecs.
  pose (w3 := mkWorld
    (d_Set "nsx_id" (SetScalar (VString id)) (d_SetId id (rd w))).1 u' r'
    (calls w ++ [CallPatch id (createObject (rd w) recs)])).
  assert (Hc : resourceNsxtPolicyServiceCreate w0
               = resourceNsxtPolicyServiceRead w3).
  { unfold resourceNsxtPolicyServiceCreate.
    unfold mbind at 1, M_bind at 1. rewrite Hg.
    unfold mbind at 1, M_bind at 1, getD at 1.
    unfold mbind at 1, M_bind at 1, liftGen at 1. rewrite He.
    unfold mbind at 1, M_bind at 1, client_Patch at 1. simpl.
    unfold createObject in Hp. rewrite Hp.
    unfold mbind, M_bind, modifyD, dSet. simpl. unfold w3, createObject.
    by destruct (d_Set "nsx_id" _ _). }
  assert (Hid3 : d_Id (rd w3) = id) by (simpl; by rewrite Id_Set, Id_SetId).
  rewrite Hc. subst recs.
  destruct (Read_of_encoded w3 obj' (rd w) (uuids w) u' Hset)
    as [Hres (Hr & Hcalls & _)]; [by rewrite Hid3|by rewrite Hid3|done|].
  split; [done|]. rewrite Hr, Hcalls, Hid3. simpl.
  by rewrite <- app_assoc.
Qed.

(** X14. An update goes through, on the same terms: with a non-empty id,
    a successful conversion, a client that accepts the [Update] and then
    returns a service holding the records it was sent, the update returns
    nil; the client saw the [Update] and one [Get], in that order. *)
Theorem Update_goes_through w recs u' o r' obj' :
  (∀ k v d, (d_Set k v d).2 = None) →
  d_Id (rd w) ≠ "" →
  resourceNsxtPolicyServiceGetEntriesFromSchema (rd w) (uuids w)
  = ((recs, None), u') →
  remote_Update (d_Id (rd w)) (updateObject (rd w) recs) (remote w)
  = (inl o, r') →
  remote_Get (d_Id (rd w)) r' = inl obj' →
  Service.ServiceEntries obj' = recs →
  (resourceNsxtPolicyServiceUpdate w).1 = Returned None ∧
  calls (resourceNsxtPolicyServiceUpdate w).2
  = calls w ++ [CallUpdate (d_Id (rd w)) (updateObject (rd w) recs);
                CallGet (d_Id (rd w))] ∧
  remote (resourceNsxtPolicyServiceUpdate w).2 = r'.
Proof.
  intros Hset Hid He Hu Hget Hrecs.
  pose (w2 := mkWorld (rd w) u' r'
    (calls w ++ [CallUpdate (d_Id (rd w)) (updateObject (rd w) recs)])).
  assert (Hc : resourceNsxtPolicyServiceUpdate w
               = resourceNsxtPolicyServiceRead w2).
  { unfold resourceNsxtPolicyServiceUpdate.
    unfold mbind at 1, M_bind at 1, getD at 1.
    destruct (decide (d_Id (rd w) = "")) as [|_]; [done|].
    unfold mbind at 1, M_bind at 1, liftGen at 1. rewrite He.
    unfold mbind at 1, M_bind at 1, client_Update at 1. simpl.
    unfold updateObject in Hu. by rewrite Hu. }
  rewrite Hc. subst recs.
  destruct (Read_of_encoded w2 obj' (rd w) (uuids w) u' Hset)
    as [Hres (Hr & Hcalls & _)]; [done..|].
  split; [done|]. rewrite Hr, Hcalls. simpl. by rewrite <- app_assoc.
Qed.

End ReadBack.

(** ** Concrete runs for the further properties *)

Lemma triple_eq {A B C} (x : A * B * C) a b c :
  x.1.1 = a → x.1.2 = b → x.2 = c → x = ((a, b), c).
Proof. destruct x as [[a' b'] c']. simpl. by intros -> -> ->. Defined.

Lemma refAccessor_laws : AccessorLaws refAccessor.
Proof. split; intros; by destruct d. Qed.

Lemma refConverter_total (b : BindingType) (x : golang b) :
  isConverted (ConvertToVapi b x) = true.
Proof. by destruct b. Qed.

Lemma empty_id_guard_witness :
  resourceNsxtPolicyServiceRead (refWorld (goodThenBad "" ""))
  = (Returned (Some (errorString "Error obtaining service id")),
     refWorld (goodThenBad "" "")) ∧
  resourceNsxtPolicyServiceUpdate (refWorld (goodThenBad "" ""))
  = (Returned (Some (errorString "Error obtaining service id")),
     refWorld (goodThenBad "" "")) ∧
  resourceNsxtPolicyServiceDelete (refWorld (goodThenBad "" ""))
  = (Returned (Some (errorString "Error obtaining service id")),
     refWorld (goodThenBad "" "")).
Proof.
  apply (empty_id_guard (hp := refHelpers) (refWorld (goodThenBad "" ""))).
  reflexivity.
Defined.

(** The service is not there: the handler clears the resource id, and the
    client has seen one [Get]. *)
Lemma Read_only_gets_witness :
  remote (resourceNsxtPolicyServiceRead (refWorld (goodThenBad "svc" ""))).2
  = ∅ ∧
  calls (resourceNsxtPolicyServiceRead (refWorld (goodThenBad "svc" ""))).2
  = [] ++ [CallGet "svc"] ∧
  uuids (resourceNsxtPolicyServiceRead (refWorld (goodThenBad "svc" ""))).2
  = 0%nat.
Proof.
  apply (Read_only_gets (hp := refHelpers)
           (refWorld (goodThenBad "svc" ""))).
  - intros rt id err w1. simpl. by case_bool_decide.
  - discriminate.
Defined.

Lemma Create_id_error_witness :
  resourceNsxtPolicyServiceCreate (holding "taken" (goodThenBad "" "taken"))
  = (Returned (Some (errorString "Resource already exists")),
     logged (holding "taken" (goodThenBad "" "taken")) (CallGet "taken")).
Proof.
  apply (Create_id_error (hp := refHelpers)
           (holding "taken" (goodThenBad "" "taken")) "").
  reflexivity.
Defined.

Lemma Create_patch_error_witness :
  resourceNsxtPolicyServiceCreate (hp := rejectingHelpers)
    (rejectingWorld oneOfEach)
  = (Returned (Some (handleCreateError (Helpers := rejectingHelpers)
                       "Service" "uuid-0" rejected)),
     mkWorld (acc := refAccessor) (gen := refUUIDGen)
       (cl := rejectingClient) oneOfEach 7%nat ∅
       ([] ++ [CallPatch "uuid-0"
                 (createObject (hp := rejectingHelpers) oneOfEach
                    (recordsOfEach 1))])).
Proof.
  apply (Create_patch_error (hp := rejectingHelpers)
           (rejectingWorld oneOfEach) "uuid-0"
           (mkWorld (acc := refAccessor) (gen := refUUIDGen)
              (cl := rejectingClient) oneOfEach 1%nat ∅ [])
           (recordsOfEach 1) 7%nat rejected ∅).
  - reflexivity.
  - apply triple_eq; [reflexivity|vm_compute; reflexivity..].
  - reflexivity.
Defined.

Lemma Update_client_error_witness :
  Service.Revision
    (updateObject (hp := rejectingHelpers) oneOfEach (recordsOfEach 0))
  = Some (d_GetInt "revision" oneOfEach) ∧
  resourceNsxtPolicyServiceUpdate (hp := rejectingHelpers)
    (rejectingWorld oneOfEach)
  = (Returned (Some (handleUpdateError (Helpers := rejectingHelpers)
                       "Service" "svc" rejected)),
     mkWorld (acc := refAccessor) (gen := refUUIDGen)
       (cl := rejectingClient) oneOfEach 6%nat ∅
       ([] ++ [CallUpdate "svc"
                 (updateObject (hp := rejectingHelpers) oneOfEach
                    (recordsOfEach 0))])).
Proof.
  apply (Update_client_error (hp := rejectingHelpers)
           (rejectingWorld oneOfEach) (recordsOfEach 0) 6%nat rejected ∅).
  - discriminate.
  - apply triple_eq; [reflexivity|vm_compute; reflexivity..].
  - reflexivity.
Defined.

Lemma decode_conserves_records_witness :
  totalEntries (decodedLists twoRecords)
  = (totalEntries nilEntryLists + length twoRecords)%nat ∧
  ∀ b, entriesOf b nilEntryLists
       `prefix_of` entriesOf b (decodedLists twoRecords).
Proof.
  apply (decode_conserves_records (conv := refConverter) twoRecords
           nilEntryLists (decodedLists twoRecords)).
  vm_compute; reflexivity.
Defined.

Lemma decoded_elements_have_schema_keys_witness :
  dom (default ∅ (entriesOf L4PortSetServiceEntryBindingType
                    (decodedLists twoRecords) !! 0%nat))
  = entrySchemaKeys L4PortSetServiceEntryBindingType.
Proof.
  apply (decoded_elements_have_schema_keys (conv := refConverter)
           twoRecords (decodedLists twoRecords)).
  - vm_compute; reflexivity.
  - apply list_elem_of_lookup_2 with 0%nat. vm_compute; reflexivity.
Defined.

Lemma encode_fails_iff_malformed_witness :
  ((resourceNsxtPolicyServiceGetEntriesFromSchema (goodThenBad "svc" "")
      0%nat).1.2 = None ↔
   ∀ e, e ∈ d_icmp_entry (goodThenBad "svc" "") → parses e) ∧
  (∀ er,
     (resourceNsxtPolicyServiceGetEntriesFromSchema (goodThenBad "svc" "")
        0%nat).1.2 = Some er →
     ∃ e v k,
       e ∈ d_icmp_entry (goodThenBad "svc" "") ∧
       (v = icmp_entry.icmp_type e ∨ v = icmp_entry.icmp_code e) ∧
       v ≠ "" ∧ strconv.Atoi v = inr er ∧ er = NumError "Atoi" v k) ∧
  ((resourceNsxtPolicyServiceGetEntriesFromSchema (goodThenBad "svc" "")
      0%nat).1.2 = None →
   length (resourceNsxtPolicyServiceGetEntriesFromSchema
             (goodThenBad "svc" "") 0%nat).1.1
   = (length (d_icmp_entry (goodThenBad "svc" ""))
      + length (d_l4_port_set_entry (goodThenBad "svc" ""))
      + length (d_igmp_entry (goodThenBad "svc" ""))
      + length (d_ether_type_entry (goodThenBad "svc" ""))
      + length (d_ip_protocol_entry (goodThenBad "svc" ""))
      + length (d_algorithm_entry (goodThenBad "svc" "")))%nat).
Proof.
  apply (encode_fails_iff_malformed (conv := refConverter)
           (acc := refAccessor) (gen := refUUIDGen)
           (goodThenBad "svc" "") 0%nat).
  exact refConverter_total.
Defined.

Lemma records_carry_fresh_ids_witness :
  carriedId <$> recordsOfEach 0
  = Some <$> drawn (length (recordsOfEach 0)) 0%nat ∧
  6%nat = advance (length (recordsOfEach 0)) 0%nat ∧
  (NoDup (drawn (length (recordsOfEach 0)) 0%nat) →
   NoDup (carriedId <$> recordsOfEach 0)).
Proof.
  apply (records_carry_fresh_ids (conv := refConverter) (acc := refAccessor)
           (gen := refUUIDGen) (laws := refConverter_laws) oneOfEach 0%nat
           (recordsOfEach 0) None 6%nat).
  apply triple_eq; [reflexivity|vm_compute; reflexivity..].
Defined.

Lemma icmp_decimal_round_trip_witness :
  ∃ m,
    decodesTo ICMPTypeServiceEntryBindingType
      (recordOf ICMPTypeServiceEntryBindingType
         (icmpStruct icmp_ping (Some 8) (Some 0) "uuid-0")) m ∧
    m !! "icmp_type" = Some (VString "8") ∧
    m !! "icmp_code" = Some (VString "0") ∧
    m !! "protocol" = Some (VString "ICMPv4") ∧
    m !! "description" = Some (VStringPtr (Some "echo request")).
Proof.
  apply (icmp_decimal_round_trip (conv := refConverter) (gen := refUUIDGen)
           (laws := refConverter_laws) icmp_ping
           (recordOf ICMPTypeServiceEntryBindingType
              (icmpStruct icmp_ping (Some 8) (Some 0) "uuid-0"))).
  - right. exists 8. split; [lia|reflexivity].
  - right. exists 0. split; [lia|reflexivity].
  - exists 0%nat, 1%nat. vm_compute; reflexivity.
Defined.

Lemma Create_goes_through_witness :
  (resourceNsxtPolicyServiceCreate (refWorld oneOfEach)).1 = Returned None ∧
  calls (resourceNsxtPolicyServiceCreate (refWorld oneOfEach)).2
  = [] ++ [CallPatch "uuid-0" (createObject (hp := refHelpers) oneOfEach (recordsOfEach 1));
           CallGet "uuid-0"] ∧
  remote (resourceNsxtPolicyServiceCreate (refWorld oneOfEach)).2
  = <["uuid-0" := createObject (hp := refHelpers) oneOfEach (recordsOfEach 1)]> ∅.
Proof.
  apply (Create_goes_through (hp := refHelpers) (laws := refConverter_laws)
           (refWorld oneOfEach) "uuid-0"
           (mkWorld (acc := refAccessor) (gen := refUUIDGen)
              (cl := refClient) oneOfEach 1%nat ∅ [])
           (recordsOfEach 1) 7%nat
           (<["uuid-0" := createObject (hp := refHelpers) oneOfEach (recordsOfEach 1)]> ∅)
           (createObject (hp := refHelpers) oneOfEach (recordsOfEach 1))).
  - exact refAccessor_laws.
  - reflexivity.
  - reflexivity.
  - discriminate.
  - apply triple_eq; [reflexivity|vm_compute; reflexivity..].
  - reflexivity.
  - simpl. by rewrite lookup_insert_eq.
  - reflexivity.
Defined.

Lemma Update_goes_through_witness :
  (resourceNsxtPolicyServiceUpdate (holding "svc" oneOfEach)).1
  = Returned None ∧
  calls (resourceNsxtPolicyServiceUpdate (holding "svc" oneOfEach)).2
  = [] ++ [CallUpdate "svc" (updateObject (hp := refHelpers) oneOfEach (recordsOfEach 0));
           CallGet "svc"] ∧
  remote (resourceNsxtPolicyServiceUpdate (holding "svc" oneOfEach)).2
  = <["svc" := updateObject (hp := refHelpers) oneOfEach (recordsOfEach 0)]>
      {[ "svc" := emptyService ]}.
Proof.
  apply (Update_goes_through (hp := refHelpers) (laws := refConverter_laws)
           (holding "svc" oneOfEach) (recordsOfEach 0) 6%nat
           (updateObject (hp := refHelpers) oneOfEach (recordsOfEach 0))
           (<["svc" := updateObject (hp := refHelpers) oneOfEach (recordsOfEach 0)]>
              {[ "svc" := emptyService ]})
           (updateObject (hp := refHelpers) oneOfEach (recordsOfEach 0))).
  - reflexivity.
  - discriminate.
  - apply triple_eq; [reflexivity|vm_compute; reflexivity..].
  - simpl. by rewrite lookup_singleton_eq.
  - simpl. by rewrite lookup_insert_eq.
  - reflexivity.
Defined.
